(** * MIPS pipeline hazard simulator (scriptpythonMIPS.py)

    A shallow embedding of [MIPSPipelineSimulator]: the line decoder
    [parse_instr], the latency table [get_latency] and the one-pass
    stall scheduler [analyze].

    Text is modelled as [string] over 8-bit characters.  The Python string
    methods used by the program are embedded in [PyStr] for code points
    below 128, where [str.strip], [\s] and [str.upper] have the behaviour
    written out there; larger code points are carried along unchanged and
    are never whitespace.  Cycle numbers are Python integers, hence [Z].
    The dictionary [reg_ready_cycle] is a [gmap string Z]. *)

From Stdlib Require Import ZArith Ascii String Bool Lia.
From stdpp Require Import base gmap strings list.

Local Open Scope Z_scope.

(** ** Python string primitives *)

Module PyStr.

(** Characters for which [str.isspace] holds below 128; these are also the
    characters matched by [\s] in a [str] pattern. *)
Definition isspace (c : ascii) : bool :=
  existsb (Ascii.eqb c)
    ["009"; "010"; "011"; "012"; "013"; "028"; "029"; "030"; "031"; " "]%char.

(** The character class [[A-Za-z_]]. *)
Definition is_word_letter (c : ascii) : bool :=
  let n := N_of_ascii c in
  ((65 <=? n)%N && (n <=? 90)%N) || ((97 <=? n)%N && (n <=? 122)%N)
  || (n =? 95)%N.

(** The character class [[,\s]]. *)
Definition is_sep (c : ascii) : bool := Ascii.eqb c "," || isspace c.

Definition upper_char (c : ascii) : ascii :=
  let n := N_of_ascii c in
  if ((97 <=? n)%N && (n <=? 122)%N)%bool then ascii_of_N (n - 32) else c.

(** [s.upper()] *)
Fixpoint upper (s : string) : string :=
  match s with
  | EmptyString => EmptyString
  | String c s' => String (upper_char c) (upper s')
  end.

(** [s.lstrip()] *)
Fixpoint lstrip (s : string) : string :=
  match s with
  | EmptyString => EmptyString
  | String c s' => if isspace c then lstrip s' else s
  end.

(** [s.rstrip()] *)
Fixpoint rstrip (s : string) : string :=
  match s with
  | EmptyString => EmptyString
  | String c s' =>
      match rstrip s' with
      | EmptyString => if isspace c then EmptyString else String c EmptyString
      | r => String c r
      end
  end.

(** [s.strip()] *)
Definition strip (s : string) : string := rstrip (lstrip s).

(** [s.split(sep)] for a one-character separator: never the empty list. *)
Fixpoint split (sep : ascii) (s : string) : list string :=
  match s with
  | EmptyString => [EmptyString]
  | String c s' =>
      if Ascii.eqb c sep then EmptyString :: split sep s'
      else match split sep s' with
           | h :: t => String c h :: t
           | [] => [String c EmptyString]
           end
  end.

(** [c in s] *)
Fixpoint contains (c : ascii) (s : string) : bool :=
  match s with
  | EmptyString => false
  | String d s' => Ascii.eqb d c || contains c s'
  end.

(** [s.replace(c, '')] *)
Fixpoint remove_char (c : ascii) (s : string) : string :=
  match s with
  | EmptyString => EmptyString
  | String d s' =>
      if Ascii.eqb d c then remove_char c s' else String d (remove_char c s')
  end.

(** [s.endswith(c)] *)
Fixpoint endswith (c : ascii) (s : string) : bool :=
  match s with
  | EmptyString => false
  | String d EmptyString => Ascii.eqb d c
  | String _ s' => endswith c s'
  end.

(** [s.startswith(c)] *)
Definition startswith (c : ascii) (s : string) : bool :=
  match s with
  | EmptyString => false
  | String d _ => Ascii.eqb d c
  end.

(** [re.split(r'[,\s]+', s)]: the pieces between the maximal runs of
    separators, empty pieces at both ends included.  [in_run] tells that
    the previous character belonged to a separator run. *)
Fixpoint re_split_from (in_run : bool) (s : string) : list string :=
  match s with
  | EmptyString => [EmptyString]
  | String c s' =>
      if is_sep c then
        if in_run then re_split_from true s'
        else EmptyString :: re_split_from true s'
      else match re_split_from false s' with
           | h :: t => String c h :: t
           | [] => [String c EmptyString]
           end
  end.

Definition re_split (s : string) : list string := re_split_from false s.

(** [[A-Za-z_]*$]: letters up to the end, where [$] also accepts the
    position before a final newline. *)
Fixpoint letters_to_end (s : string) : bool :=
  match s with
  | EmptyString => true
  | String c s' =>
      if is_word_letter c then letters_to_end s'
      else Ascii.eqb c "010" && String.eqb s' EmptyString
  end.

(** [re.match(r'^[A-Za-z_]+$', s)] as a truth value. *)
Definition re_match_label (s : string) : bool :=
  match s with
  | EmptyString => false
  | String c s' => is_word_letter c && letters_to_end s'
  end.

(** Truth value of a string: non-empty. *)
Definition truthy (s : string) : bool := negb (String.eqb s EmptyString).

(** [x in l] for a list of strings. *)
Definition in_list (x : string) (l : list string) : bool :=
  existsb (String.eqb x) l.

#[global] Arguments isspace : simpl never.
#[global] Arguments is_sep : simpl never.
#[global] Arguments is_word_letter : simpl never.
#[global] Arguments upper_char : simpl never.

End PyStr.

(** ** The decoder: [parse_instr] *)

Definition store_branch_ops : list string :=
  ["S.D"; "SW"; "SB"; "BEQ"; "BNE"; "JR"].

(** [p.split('(')[1].replace(')', '')]; only evaluated when ['(' in p], so
    the index is in range. *)
Definition mem_base (p : string) : string :=
  PyStr.remove_char ")" (default EmptyString (PyStr.split "(" p !! 1%nat)).

(** Body of the operand loop of the store/branch category. *)
Definition store_branch_operand (srcs : list string) (p : string) : list string :=
  if PyStr.contains "(" p then srcs ++ [mem_base p]
  else if negb (PyStr.re_match_label p) then srcs ++ [p]
  else if PyStr.contains "$" p
          || PyStr.startswith "R" (PyStr.upper p)
          || PyStr.startswith "F" (PyStr.upper p)
       then srcs ++ [p]
       else srcs.

(** Body of the operand loop of the default category. *)
Definition default_operand (srcs : list string) (p : string) : list string :=
  if PyStr.contains "(" p then srcs ++ [mem_base p] else srcs ++ [p].

(** The tokens of a line: comment removed, stripped, split, empties dropped. *)
Definition parts_of (instr : string) : list string :=
  let instr := PyStr.strip (hd EmptyString (PyStr.split "#" instr)) in
  List.filter PyStr.truthy (PyStr.re_split instr).

(** [parse_instr] returns [(op, dest, srcs)]; [None] is Python's [None]. *)
Definition parse_instr (instr : string)
  : option string * option string * list string :=
  match parts_of instr with
  | [] => (None, None, [])
  | p0 :: args =>
      let op := PyStr.upper p0 in
      if PyStr.endswith ":" op then (Some "LABEL", None, [])
      else if PyStr.in_list op store_branch_ops then
        (Some op, None, fold_left store_branch_operand args [])
      else
        match args with
        | [] => (Some op, None, [])
        | d :: rest => (Some op, Some d, fold_left default_operand rest [])
        end
  end.

(** ** The latency table: [get_latency] *)

Definition get_latency (op : string) : Z :=
  if PyStr.in_list op ["DIV.D"; "DIV"] then 10
  else if PyStr.in_list op ["MUL.D"; "MUL"] then 4
  else if PyStr.in_list op ["L.D"; "LW"] then 2
  else 1.

(** ** The scheduler: [analyze] *)

(** What a printed row says in its last column. *)
Inductive action : Type :=
  | Label
  | Bolha (wait_reg : string)
  | Executa (op : option string).

(** One printed row: cycle, instruction text, action. *)
Record row : Type := Row {
  row_cycle : Z;
  row_text : string;
  row_action : action
}.

(** The variables the loop of [analyze] updates. *)
Record loop_state : Type := LoopState {
  reg_ready_cycle : gmap string Z;
  current_cycle : Z;
  total_stalls : Z;
  printed : list row
}.

(** Body of the loop over [srcs]; the accumulator is [(max_stall, wait_reg)]. *)
Definition hazard_step (tbl : gmap string Z) (cur : Z)
    (acc : Z * string) (src : string) : Z * string :=
  match tbl !! src with
  | Some ready_at =>
      if ready_at >? cur then
        let wait := ready_at - cur in
        if wait >? fst acc then (wait, src) else acc
      else acc
  | None => acc
  end.

Definition hazards (tbl : gmap string Z) (cur : Z) (srcs : list string)
  : Z * string :=
  fold_left (hazard_step tbl cur) srcs (0, EmptyString).

(** One bubble: a NOP row, one cycle, one stall. *)
Definition bubble (wait_reg : string) (st : loop_state) : loop_state :=
  {| reg_ready_cycle := reg_ready_cycle st;
     current_cycle := current_cycle st + 1;
     total_stalls := total_stalls st + 1;
     printed := printed st ++ [Row (current_cycle st) "NOP" (Bolha wait_reg)] |}.

(** [for _ in range(n)] around [bubble]. *)
Fixpoint insert_bubbles (n : nat) (wait_reg : string) (st : loop_state)
  : loop_state :=
  match n with
  | O => st
  | S n' => insert_bubbles n' wait_reg (bubble wait_reg st)
  end.

(** [op == 'LABEL'] *)
Definition is_label_op (op : option string) : bool :=
  match op with
  | Some o => String.eqb o "LABEL"
  | None => false
  end.

(** Steps 1 to 4 of the loop body, for a decoded line that is not a label. *)
Definition issue (line : string) (op : option string) (dest : option string)
    (srcs : list string) (st : loop_state) : loop_state :=
  let '(max_stall, wait_reg) :=
    hazards (reg_ready_cycle st) (current_cycle st) srcs in
  let st1 :=
    if max_stall >? 0 then insert_bubbles (Z.to_nat max_stall) wait_reg st
    else st in
  let rows := printed st1 ++ [Row (current_cycle st1) line (Executa op)] in
  let tbl :=
    match dest with
    | Some d =>
        if PyStr.truthy d then
          let latency := match op with
                         | Some o => get_latency o
                         | None => 1
                         end in
          <[d := current_cycle st1 + latency]> (reg_ready_cycle st1)
        else reg_ready_cycle st1
    | None => reg_ready_cycle st1
    end in
  {| reg_ready_cycle := tbl;
     current_cycle := current_cycle st1 + 1;
     total_stalls := total_stalls st1;
     printed := rows |}.

(** The body of [for line in lines]. *)
Definition analyze_line (st : loop_state) (line : string) : loop_state :=
  let line := PyStr.strip line in
  if negb (PyStr.truthy line) then st
  else
    let '(op, dest, srcs) := parse_instr line in
    if is_label_op op then
      {| reg_ready_cycle := reg_ready_cycle st;
         current_cycle := current_cycle st;
         total_stalls := total_stalls st;
         printed := printed st ++ [Row (current_cycle st) line Label] |}
    else issue line op dest srcs st.

(** The simulator object: its only field is the readiness table. *)
Record simulator : Type := Simulator {
  self_reg_ready_cycle : gmap string Z
}.

(** [MIPSPipelineSimulator()] *)
Definition new_simulator : simulator := Simulator ∅.

(** What a run prints and returns: the rows, then the three summary lines
    ("Instruções Úteis", "Bolhas (NOPs)", "Total de Ciclos"); the last one is
    also the return value. *)
Record report : Type := Report {
  rows : list row;
  instrucoes_uteis : nat;
  bolhas : Z;
  exec_cycles : Z
}.

(** [self.reg_ready_cycle = {}] *)
Definition reset (self : simulator) : simulator := Simulator ∅.

(** The loop variables before the first line: the table is the object's. *)
Definition start (self : simulator) : loop_state :=
  {| reg_ready_cycle := self_reg_ready_cycle self;
     current_cycle := 1;
     total_stalls := 0;
     printed := [] |}.

Definition run_lines (self : simulator) (lines : list string) : loop_state :=
  fold_left analyze_line lines (start self).

(** [code_str.strip().split('\n')] *)
Definition lines_of (code_str : string) : list string :=
  PyStr.split "010" (PyStr.strip code_str).

Definition analyze (self : simulator) (code_str : string) : simulator * report :=
  let lines := lines_of code_str in
  let self := reset self in
  let st := run_lines self lines in
  (Simulator (reg_ready_cycle st),
   Report (printed st) (length lines) (total_stalls st) (current_cycle st - 1)).

(** The inputs of the script. *)
Definition nl : string := String "010" EmptyString.

Definition code_C : string :=
  nl +:+ "L.D F0, 0(R1)" +:+ nl +:+ "ADD.D F4, F0, F2" +:+ nl +:+
  "S.D F4, 0(R1)" +:+ nl +:+ "DADDUI R1, R1, #-8" +:+ nl +:+
  "BNE R1, R2, Loop" +:+ nl.

Definition code_D : string :=
  nl +:+ "DIV.D F0, F2, F4" +:+ nl +:+ "ADD.D F10, F0, F8" +:+ nl +:+
  "SUB.D F12, F8, F14" +:+ nl.

Definition code_F : string :=
  nl +:+ "ADD R4, R5, R6" +:+ nl +:+ "BEQ R1, R2, EXIT" +:+ nl +:+
  "OR R7, R8, R9" +:+ nl.

(** Further inputs: a label before an instruction, and a blank line between
    two independent instructions. *)
Definition code_label : string := "Loop:" +:+ nl +:+ "ADD R1, R2, R3".

Definition code_gap : string :=
  "ADD R4, R5, R6" +:+ nl +:+ nl +:+ "OR R7, R8, R9".

(** The loop state of the run on [code_C] after its first line. *)
Definition after_load : loop_state :=
  analyze_line (start new_simulator) "L.D F0, 0(R1)".

(** ** Vocabulary of the specification *)

(** The wait one source imposes: [max(0, ready_cycle[r] - current_cycle)]
    when [r] is in the readiness table, nothing otherwise. *)
Definition wait_of (tbl : gmap string Z) (cur : Z) (r : string) : option Z :=
  (λ ready_at, Z.max 0 (ready_at - cur)) <$> tbl !! r.

(** The maximum of those waits over the sources present in the table. *)
Definition required_wait (tbl : gmap string Z) (cur : Z) (srcs : list string) : Z :=
  foldr Z.max 0 (omap (wait_of tbl cur) srcs).

(** The first source, in operand order, whose wait is the required one. *)
Definition first_max_source (tbl : gmap string Z) (cur : Z) (srcs : list string)
  : option string :=
  List.find
    (λ r, bool_decide (wait_of tbl cur r = Some (required_wait tbl cur srcs)))
    srcs.

(** [n] NOP rows at the cycles [cur], [cur + 1], ... *)
Definition bubble_rows (cur : Z) (n : nat) (wait_reg : string) : list row :=
  map (λ i, Row (cur + Z.of_nat i) "NOP" (Bolha wait_reg)) (seq 0 n).

(** A schedule entry: a label or an issued instruction, the cycle printed for
    it and the number of bubbles printed immediately before it. *)
Record entry : Type := Entry {
  issue_cycle : Z;
  stalls_inserted : Z;
  entry_is_label : bool
}.

(** The schedule read off the printed rows; [pending] counts the NOP rows
    seen since the last entry. *)
Fixpoint schedule_from (pending : Z) (rs : list row) : list entry :=
  match rs with
  | [] => []
  | r :: rs' =>
      match row_action r with
      | Bolha _ => schedule_from (pending + 1) rs'
      | Label => Entry (row_cycle r) 0 true :: schedule_from pending rs'
      | Executa _ => Entry (row_cycle r) pending false :: schedule_from 0 rs'
      end
  end.

Definition schedule (rs : list row) : list entry := schedule_from 0 rs.

(** Consecutive entries: strictly increasing cycles, each one more than the
    previous cycle plus the stalls inserted before the entry. *)
Fixpoint spaced_after (prev : Z) (es : list entry) : Prop :=
  match es with
  | [] => True
  | e :: es' =>
      prev < issue_cycle e
      ∧ issue_cycle e = 1 + prev + stalls_inserted e
      ∧ spaced_after (issue_cycle e) es'
  end.

(** The first entry counts from cycle 0. *)
Definition spaced (es : list entry) : Prop := spaced_after 0 es.

(** The same, with labels printed at the cycle of what follows them: [prev] is
    the cycle of the last issued instruction. *)
Fixpoint label_spaced_after (prev : Z) (es : list entry) : Prop :=
  match es with
  | [] => True
  | e :: es' =>
      if entry_is_label e then
        issue_cycle e = 1 + prev ∧ stalls_inserted e = 0
        ∧ label_spaced_after prev es'
      else
        issue_cycle e = 1 + prev + stalls_inserted e ∧ 0 ≤ stalls_inserted e
        ∧ label_spaced_after (issue_cycle e) es'
  end.

Definition issued (es : list entry) : list entry :=
  List.filter (λ e, negb (entry_is_label e)) es.

(** A token made of letters and underscores only. *)
Definition pure_letters (p : string) : bool :=
  PyStr.truthy p && forallb PyStr.is_word_letter (list_ascii_of_string p).

(** A token that begins with a register prefix, [R] or [F] in either case. *)
Definition has_register_prefix (p : string) : bool :=
  match p with
  | EmptyString => false
  | String c _ => existsb (Ascii.eqb c) ["R"; "r"; "F"; "f"]%char
  end.

(** A plain operand skipped as a branch label. *)
Definition is_branch_label (p : string) : bool :=
  pure_letters p && negb (has_register_prefix p) && negb (PyStr.contains "$" p).

(** The sources one operand of a store, branch or jump contributes. *)
Definition store_branch_sources (p : string) : list string :=
  if PyStr.contains "(" p then [mem_base p]
  else if is_branch_label p then []
  else [p].

(** The decoded instructions a run issues: blank lines and labels dropped. *)
Definition decoded_line (line : string)
  : option (option string * option string * list string) :=
  let line := PyStr.strip line in
  if PyStr.truthy line then
    let d := parse_instr line in
    if is_label_op (fst (fst d)) then None else Some d
  else None.

Definition decoded (lines : list string)
  : list (option string * option string * list string) :=
  omap decoded_line lines.

(** No source of an instruction is the destination of an earlier one;
    [written] lists the destinations met so far. *)
Fixpoint independent_after (written : list string)
    (ds : list (option string * option string * list string)) : bool :=
  match ds with
  | [] => true
  | (_, dest, srcs) :: ds' =>
      forallb (λ s, negb (PyStr.in_list s written)) srcs
      && independent_after
           (match dest with Some d => d :: written | None => written end) ds'
  end.

Definition independent (lines : list string) : bool :=
  independent_after [] (decoded lines).

(** A text of whitespace only. *)
Definition blank (s : string) : bool :=
  forallb PyStr.isspace (list_ascii_of_string s).

(** A row that takes a cycle: a bubble or an instruction. *)
Definition occupies_cycle (r : row) : bool :=
  match row_action r with
  | Label => false
  | Bolha _ | Executa _ => true
  end.

Definition is_bolha (r : row) : bool :=
  match row_action r with
  | Bolha _ => true
  | Label | Executa _ => false
  end.

(** The stalls of a schedule, added up. *)
Definition stalls_of (es : list entry) : Z :=
  foldr Z.add 0 (map stalls_inserted es).

(** Rows that end on an entry: whatever is printed next is scheduled on its
    own. *)
Definition schedule_closed (rs : list row) : Prop :=
  ∀ X : list row, schedule (rs ++ X) = schedule rs ++ schedule X.

(** The source an operand of the default category contributes. *)
Definition default_source (p : string) : string :=
  if PyStr.contains "(" p then mem_base p else p.

(** ** The script *)

Definition code_A : string :=
  nl +:+ "ADD $t0, $t1, $t2" +:+ nl +:+ "SUB $t3, $t0, $t4" +:+ nl +:+
  "AND $t5, $t3, $t6" +:+ nl +:+ "OR $t7, $t5, $t8" +:+ nl.

Definition code_B : string :=
  nl +:+ "ADD R1, R2, R3" +:+ nl +:+ "SUB R4, R1, R5" +:+ nl +:+
  "AND R6, R1, R7" +:+ nl +:+ "OR R8, R1, R9" +:+ nl +:+
  "XOR R10, R1, R11" +:+ nl.

Definition code_C_opt : string :=
  nl +:+ "L.D F0, 0(R1)" +:+ nl +:+ "DADDUI R1, R1, #-8" +:+ nl +:+
  "ADD.D F4, F0, F2" +:+ nl +:+ "BNE R1, R2, Loop" +:+ nl +:+
  "S.D F4, 8(R1)" +:+ nl.

Definition code_E : string :=
  nl +:+ "DIV.D F0, F2, F4" +:+ nl +:+ "ADD.D F6, F0, F8" +:+ nl +:+
  "S.D F6, 0(R1)" +:+ nl +:+ "SUB.D F8, F10, F14" +:+ nl +:+
  "MUL.D F6, F10, F8" +:+ nl.

(** The main part of the script: one object, the seven analyses in order.
    The result lists what each call returns. *)
Definition script_step (acc : simulator * list Z) (code_str : string)
  : simulator * list Z :=
  let '(sim, returned) := acc in
  let '(sim', r) := analyze sim code_str in
  (sim', returned ++ [exec_cycles r]).

Definition script : simulator * list Z :=
  fold_left script_step
    [code_A; code_B; code_C; code_C_opt; code_D; code_E; code_F]
    (new_simulator, []).

(** ** The decoder and the scheduler on the script's inputs *)

Example parse_load : parse_instr "L.D F0, 0(R1)" = (Some "L.D", Some "F0", ["R1"]).
Proof. reflexivity. Qed.

Example parse_store : parse_instr "S.D F4, 0(R1)" = (Some "S.D", None, ["F4"; "R1"]).
Proof. reflexivity. Qed.

Example parse_branch : parse_instr "BNE R1, R2, Loop" = (Some "BNE", None, ["R1"; "R2"]).
Proof. reflexivity. Qed.

Example parse_imm : parse_instr "DADDUI R1, R1, #-8" = (Some "DADDUI", Some "R1", ["R1"]).
Proof. reflexivity. Qed.

Example parse_label : parse_instr "Loop:" = (Some "LABEL", None, []).
Proof. reflexivity. Qed.

Example analyze_code_C :
  snd (analyze new_simulator code_C)
  = Report
      [Row 1 "L.D F0, 0(R1)" (Executa (Some "L.D"));
       Row 2 "NOP" (Bolha "F0");
       Row 3 "ADD.D F4, F0, F2" (Executa (Some "ADD.D"));
       Row 4 "S.D F4, 0(R1)" (Executa (Some "S.D"));
       Row 5 "DADDUI R1, R1, #-8" (Executa (Some "DADDUI"));
       Row 6 "BNE R1, R2, Loop" (Executa (Some "BNE"))]
      5 1 6.
Proof. vm_compute. reflexivity. Qed.

Example analyze_code_D :
  let r := snd (analyze new_simulator code_D) in
  (instrucoes_uteis r, bolhas r, exec_cycles r) = (3%nat, 9, 12).
Proof. vm_compute. reflexivity. Qed.

Example analyze_code_F :
  let r := snd (analyze new_simulator code_F) in
  (instrucoes_uteis r, bolhas r, exec_cycles r) = (3%nat, 0, 3).
Proof. vm_compute. reflexivity. Qed.

(** ** Facts about the string primitives *)

Module PyStrFacts.
Import PyStr.

Lemma in_list_In (x : string) (l : list string) :
  in_list x l = true ↔ x ∈ l.
Proof.
  unfold in_list. induction l as [|y l IH]; simpl.
  - split; [discriminate | intros H; inversion H].
  - rewrite orb_true_iff, IH, String.eqb_eq, elem_of_cons. reflexivity.
Qed.

Lemma truthy_nonempty (s : string) : truthy s = true ↔ s ≠ EmptyString.
Proof.
  unfold truthy. rewrite negb_true_iff, String.eqb_neq. reflexivity.
Qed.

End PyStrFacts.

(** ** The latency table *)

(** C4: [get_latency] is a lookup on the mnemonic alone: 10 exactly for the
    divide mnemonics, 4 exactly for the multiply mnemonics, 2 exactly for the
    load mnemonics, and 1 for every other mnemonic, known or not. *)
Theorem get_latency_table (op : string) :
  (get_latency op = 10 ↔ op = "DIV.D" ∨ op = "DIV")
  ∧ (get_latency op = 4 ↔ op = "MUL.D" ∨ op = "MUL")
  ∧ (get_latency op = 2 ↔ op = "L.D" ∨ op = "LW")
  ∧ (get_latency op = 1 ↔
       op ∉ ["DIV.D"; "DIV"; "MUL.D"; "MUL"; "L.D"; "LW"]).
Proof.
  unfold get_latency.
  destruct (PyStr.in_list op ["DIV.D"; "DIV"]) eqn:Hd;
    [|destruct (PyStr.in_list op ["MUL.D"; "MUL"]) eqn:Hm;
      [|destruct (PyStr.in_list op ["L.D"; "LW"]) eqn:Hl]].
  all: repeat match goal with
       | H : PyStr.in_list _ _ = true |- _ =>
           apply PyStrFacts.in_list_In in H
       | H : PyStr.in_list _ _ = false |- _ =>
           apply not_true_iff_false in H;
           rewrite PyStrFacts.in_list_In in H
       end.
  all: rewrite ?elem_of_cons, ?elem_of_nil in *.
  all: repeat split; intros; try lia; try tauto.
  all: try (exfalso; intuition (subst; discriminate || tauto)).
  all: try (intuition (subst; discriminate || tauto)).
Qed.

(** ** The hazard scan *)

Section HazardScan.
Variable tbl : gmap string Z.
Variable cur : Z.

Lemma required_wait_cons (a : string) (t : list string) :
  required_wait tbl cur (a :: t)
  = match wait_of tbl cur a with
    | Some w => Z.max w (required_wait tbl cur t)
    | None => required_wait tbl cur t
    end.
Proof.
  unfold required_wait. cbn [omap list_omap].
  destruct (wait_of tbl cur a); reflexivity.
Qed.

Lemma required_wait_nonneg (srcs : list string) :
  0 ≤ required_wait tbl cur srcs.
Proof.
  induction srcs as [|a t IH]; [unfold required_wait; simpl; lia|].
  rewrite required_wait_cons. destruct (wait_of tbl cur a); lia.
Qed.

(** The loop started from any accumulator [(m, wr)] with [0 ≤ m]. *)
Lemma hazard_fold (srcs : list string) : ∀ (m : Z) (wr : string),
  0 ≤ m →
  fold_left (hazard_step tbl cur) srcs (m, wr)
  = (Z.max m (required_wait tbl cur srcs),
     if required_wait tbl cur srcs >? m then
       default EmptyString
         (List.find
            (λ r, bool_decide
                    (wait_of tbl cur r = Some (required_wait tbl cur srcs)))
            srcs)
     else wr).
Proof.
  induction srcs as [|a t IH]; intros m wr Hm.
  - simpl. unfold required_wait. simpl.
    destruct (Z.gtb_spec 0 m); [lia|]. f_equal. lia.
  - pose proof (required_wait_nonneg t) as Ht.
    assert (Hstep : hazard_step tbl cur (m, wr) a
                    = match wait_of tbl cur a with
                      | Some w => if w >? m then (w, a) else (m, wr)
                      | None => (m, wr)
                      end).
    { unfold hazard_step, wait_of.
      destruct (tbl !! a) as [ra|]; cbn [fmap option_fmap option_map fst];
        [|reflexivity].
      destruct (Z.gtb_spec ra cur).
      - replace (Z.max 0 (ra - cur)) with (ra - cur) by lia. reflexivity.
      - replace (Z.max 0 (ra - cur)) with 0 by lia.
        destruct (Z.gtb_spec 0 m); [lia|reflexivity]. }
    assert (Hnn : ∀ w, wait_of tbl cur a = Some w → 0 ≤ w).
    { unfold wait_of. intros w. destruct (tbl !! a); intros [=]. lia. }
    cbn [fold_left List.find]. rewrite Hstep, required_wait_cons.
    destruct (wait_of tbl cur a) as [wa|] eqn:Ea.
    + specialize (Hnn wa eq_refl).
      destruct (Z.gtb_spec wa m) as [Hw|Hw]; rewrite IH by lia.
      * destruct (Z.gtb_spec (Z.max wa (required_wait tbl cur t)) m); [|lia].
        f_equal; [lia|].
        destruct (Z.gtb_spec (required_wait tbl cur t) wa).
        -- rewrite bool_decide_eq_false_2 by (intros [=]; lia).
           replace (Z.max wa (required_wait tbl cur t))
             with (required_wait tbl cur t) by lia.
           reflexivity.
        -- rewrite bool_decide_eq_true_2 by (f_equal; lia). reflexivity.
      * f_equal; [lia|].
        destruct (Z.gtb_spec (required_wait tbl cur t) m);
          destruct (Z.gtb_spec (Z.max wa (required_wait tbl cur t)) m);
          try lia; [|reflexivity].
        rewrite bool_decide_eq_false_2 by (intros [=]; lia).
        replace (Z.max wa (required_wait tbl cur t))
          with (required_wait tbl cur t) by lia.
        reflexivity.
    + rewrite IH by lia. rewrite bool_decide_eq_false_2 by congruence.
      reflexivity.
Qed.

(** The scan as [analyze] runs it. *)
Lemma hazards_spec (srcs : list string) :
  hazards tbl cur srcs
  = (required_wait tbl cur srcs,
     if required_wait tbl cur srcs >? 0 then
       default EmptyString (first_max_source tbl cur srcs)
     else EmptyString).
Proof.
  unfold hazards, first_max_source. rewrite hazard_fold by lia.
  pose proof (required_wait_nonneg srcs). f_equal. lia.
Qed.

(** Every source in the table is ready within the required wait. *)
Lemma required_wait_covers (srcs : list string) (src : string) (ready_at : Z) :
  src ∈ srcs → tbl !! src = Some ready_at →
  ready_at ≤ cur + required_wait tbl cur srcs.
Proof.
  induction srcs as [|a t IH]; intros Hin Hl.
  - inversion Hin.
  - rewrite required_wait_cons. apply elem_of_cons in Hin as [->|Hin].
    + unfold wait_of. rewrite Hl. simpl. lia.
    + specialize (IH Hin Hl). destruct (wait_of tbl cur a); lia.
Qed.

(** With a positive required wait, some source attains it. *)
Lemma first_max_source_found (srcs : list string) :
  0 < required_wait tbl cur srcs →
  ∃ r, first_max_source tbl cur srcs = Some r.
Proof.
  unfold first_max_source.
  generalize (required_wait_nonneg srcs).
  assert (G : ∀ w, 0 < w → w = required_wait tbl cur srcs →
            ∃ r, List.find (λ r, bool_decide (wait_of tbl cur r = Some w)) srcs
                 = Some r).
  { induction srcs as [|a t IH]; intros w Hw Heq.
    - unfold required_wait in Heq. simpl in Heq. lia.
    - rewrite required_wait_cons in Heq. simpl.
      destruct (wait_of tbl cur a) as [wa|] eqn:Ea.
      + destruct (decide (wa = w)) as [->|Hne].
        * rewrite bool_decide_eq_true_2 by reflexivity. eauto.
        * rewrite bool_decide_eq_false_2 by congruence.
          apply IH; [lia|]. lia.
      + rewrite bool_decide_eq_false_2 by congruence. apply IH; assumption. }
  intros _ Hpos. apply G; [assumption|reflexivity].
Qed.

End HazardScan.

(** ** One iteration of the scheduling loop *)

Lemma bubble_rows_S (cur : Z) (n : nat) (wr : string) :
  bubble_rows cur (S n) wr
  = Row cur "NOP" (Bolha wr) :: bubble_rows (cur + 1) n wr.
Proof.
  unfold bubble_rows. cbn [seq map]. f_equal.
  - f_equal. lia.
  - rewrite <- seq_shift, map_map. apply map_ext. intros i. f_equal. lia.
Qed.

Lemma length_bubble_rows (cur : Z) (n : nat) (wr : string) :
  length (bubble_rows cur n wr) = n.
Proof. unfold bubble_rows. rewrite length_map, length_seq. reflexivity. Qed.

Lemma insert_bubbles_spec (n : nat) (wr : string) : ∀ st : loop_state,
  insert_bubbles n wr st
  = {| reg_ready_cycle := reg_ready_cycle st;
       current_cycle := current_cycle st + Z.of_nat n;
       total_stalls := total_stalls st + Z.of_nat n;
       printed := printed st ++ bubble_rows (current_cycle st) n wr |}.
Proof.
  induction n as [|n IH]; intros [tbl cur stalls rs].
  - cbn. rewrite app_nil_r. f_equal; lia.
  - cbn [insert_bubbles]. rewrite IH. unfold bubble.
    cbn [reg_ready_cycle current_cycle total_stalls printed].
    rewrite bubble_rows_S, <- app_assoc. cbn [app]. f_equal; lia.
Qed.

(** The table an issue leaves behind. *)
Lemma issue_spec (line : string) (op dest : option string)
    (srcs : list string) (st : loop_state) :
  ∃ wait_reg : string,
    (0 < required_wait (reg_ready_cycle st) (current_cycle st) srcs →
     first_max_source (reg_ready_cycle st) (current_cycle st) srcs
     = Some wait_reg)
    ∧ issue line op dest srcs st
      = let w := required_wait (reg_ready_cycle st) (current_cycle st) srcs in
        {| reg_ready_cycle :=
             match dest with
             | Some d =>
                 if PyStr.truthy d then
                   <[d := current_cycle st + w
                          + match op with
                            | Some o => get_latency o
                            | None => 1
                            end]> (reg_ready_cycle st)
                 else reg_ready_cycle st
             | None => reg_ready_cycle st
             end;
           current_cycle := current_cycle st + w + 1;
           total_stalls := total_stalls st + w;
           printed :=
             printed st
             ++ bubble_rows (current_cycle st) (Z.to_nat w) wait_reg
             ++ [Row (current_cycle st + w) line (Executa op)] |}.
Proof.
  pose proof (required_wait_nonneg (reg_ready_cycle st) (current_cycle st) srcs)
    as Hnn.
  unfold issue. rewrite hazards_spec.
  destruct (Z.gtb_spec
              (required_wait (reg_ready_cycle st) (current_cycle st) srcs) 0)
    as [Hpos|Hzero].
  - destruct (first_max_source_found _ _ _ Hpos) as [r Hr].
    exists r. split; [intros _; exact Hr|].
    rewrite Hr. cbn [default]. rewrite insert_bubbles_spec.
    cbn [reg_ready_cycle current_cycle total_stalls printed].
    rewrite Z2Nat.id by lia. rewrite <- app_assoc. reflexivity.
  - exists EmptyString. split; [lia|].
    assert (required_wait (reg_ready_cycle st) (current_cycle st) srcs = 0)
      as -> by lia.
    cbn [Z.to_nat bubble_rows seq map app]. rewrite !Z.add_0_r.
    reflexivity.
Qed.

Lemma analyze_line_blank (st : loop_state) (line : string) :
  PyStr.strip line = EmptyString → analyze_line st line = st.
Proof. intros H. unfold analyze_line. rewrite H. reflexivity. Qed.

Lemma analyze_line_label (st : loop_state) (line : string) :
  PyStr.strip line ≠ EmptyString →
  is_label_op (fst (fst (parse_instr (PyStr.strip line)))) = true →
  analyze_line st line
  = {| reg_ready_cycle := reg_ready_cycle st;
       current_cycle := current_cycle st;
       total_stalls := total_stalls st;
       printed :=
         printed st ++ [Row (current_cycle st) (PyStr.strip line) Label] |}.
Proof.
  intros Hne Hlab. unfold analyze_line.
  apply PyStrFacts.truthy_nonempty in Hne. rewrite Hne. cbn [negb].
  destruct (parse_instr (PyStr.strip line)) as [[op dest] srcs].
  cbn [fst] in Hlab. rewrite Hlab. reflexivity.
Qed.

Lemma analyze_line_issue (st : loop_state) (line : string)
    (op dest : option string) (srcs : list string) :
  PyStr.strip line ≠ EmptyString →
  parse_instr (PyStr.strip line) = (op, dest, srcs) →
  op ≠ Some "LABEL" →
  analyze_line st line = issue (PyStr.strip line) op dest srcs st.
Proof.
  intros Hne Hp Hlab. unfold analyze_line.
  apply PyStrFacts.truthy_nonempty in Hne. rewrite Hne, Hp. cbn [negb].
  destruct (is_label_op op) eqn:E; [|reflexivity].
  destruct op as [o|]; [|discriminate]. cbn in E.
  apply String.eqb_eq in E. congruence.
Qed.

Lemma is_label_op_false (op : option string) :
  is_label_op op = false ↔ op ≠ Some "LABEL".
Proof.
  destruct op as [o|]; cbn; [|split; [discriminate|reflexivity]].
  rewrite String.eqb_neq. split; congruence.
Qed.

(** A decoded destination is a token: it comes with a mnemonic and is not
    the empty text. *)
Lemma parse_instr_dest (l : string) (op : option string) (d : string)
    (srcs : list string) :
  parse_instr l = (op, Some d, srcs) →
  (∃ o, op = Some o) ∧ PyStr.truthy d = true.
Proof.
  unfold parse_instr, parts_of.
  destruct (List.filter _ _) as [|p0 args] eqn:Ef; [discriminate|].
  destruct (PyStr.endswith _ _); [discriminate|].
  destruct (PyStr.in_list _ _); [discriminate|].
  destruct args as [|d' rest]; [discriminate|].
  intros [= <- <- <-]. split; [eauto|].
  assert (In d' (List.filter PyStr.truthy
                   (PyStr.re_split
                      (PyStr.strip (hd EmptyString (PyStr.split "#" l))))))
    as Hin by (rewrite Ef; right; left; reflexivity).
  apply filter_In in Hin. tauto.
Qed.

(** ** Stalls, readiness and the table update *)

(** C1: when the loop processes a line decoded as an operation, it prints
    exactly [required_wait] NOP rows before the instruction's own row, where
    [required_wait] is the maximum over the sources present in the readiness
    table of [max(0, ready_cycle - current_cycle)]; the rows sit at
    consecutive cycles, every bubble adds one to the cycle counter and one to
    the stall counter, and the register named in the NOP rows is the first
    source, in operand order, whose wait equals that maximum. *)
Theorem bubbles_before_operation (st : loop_state) (line : string)
    (op dest : option string) (srcs : list string) :
  PyStr.strip line ≠ EmptyString →
  parse_instr (PyStr.strip line) = (op, dest, srcs) →
  op ≠ Some "LABEL" →
  ∃ wait_reg : string,
    printed (analyze_line st line)
    = printed st
      ++ bubble_rows (current_cycle st)
           (Z.to_nat
              (required_wait (reg_ready_cycle st) (current_cycle st) srcs))
           wait_reg
      ++ [Row (current_cycle st
               + required_wait (reg_ready_cycle st) (current_cycle st) srcs)
            (PyStr.strip line) (Executa op)]
    ∧ Z.of_nat
        (length
           (bubble_rows (current_cycle st)
              (Z.to_nat
                 (required_wait (reg_ready_cycle st) (current_cycle st) srcs))
              wait_reg))
      = required_wait (reg_ready_cycle st) (current_cycle st) srcs
    ∧ (0 < required_wait (reg_ready_cycle st) (current_cycle st) srcs →
       first_max_source (reg_ready_cycle st) (current_cycle st) srcs
       = Some wait_reg)
    ∧ current_cycle (analyze_line st line)
      = current_cycle st
        + required_wait (reg_ready_cycle st) (current_cycle st) srcs + 1
    ∧ total_stalls (analyze_line st line)
      = total_stalls st
        + required_wait (reg_ready_cycle st) (current_cycle st) srcs
    ∧ (∀ (wr : string) (s : loop_state),
         current_cycle (bubble wr s) = current_cycle s + 1
         ∧ total_stalls (bubble wr s) = total_stalls s + 1
         ∧ reg_ready_cycle (bubble wr s) = reg_ready_cycle s).
Proof.
  intros Hne Hp Hlab.
  rewrite (analyze_line_issue st line op dest srcs Hne Hp Hlab).
  destruct (issue_spec (PyStr.strip line) op dest srcs st) as (wr & Hwr & ->).
  pose proof (required_wait_nonneg (reg_ready_cycle st) (current_cycle st) srcs).
  exists wr. cbn [printed current_cycle total_stalls].
  repeat split; try assumption.
  rewrite length_bubble_rows. lia.
Qed.

Lemma bubbles_before_operation_witness :
  ∃ wait_reg : string,
    printed (analyze_line after_load "ADD.D F4, F0, F2")
    = printed after_load
      ++ bubble_rows (current_cycle after_load)
           (Z.to_nat
              (required_wait (reg_ready_cycle after_load)
                 (current_cycle after_load) ["F0"; "F2"]))
           wait_reg
      ++ [Row (current_cycle after_load
               + required_wait (reg_ready_cycle after_load)
                   (current_cycle after_load) ["F0"; "F2"])
            (PyStr.strip "ADD.D F4, F0, F2") (Executa (Some "ADD.D"))]
    ∧ Z.of_nat
        (length
           (bubble_rows (current_cycle after_load)
              (Z.to_nat
                 (required_wait (reg_ready_cycle after_load)
                    (current_cycle after_load) ["F0"; "F2"]))
              wait_reg))
      = required_wait (reg_ready_cycle after_load)
          (current_cycle after_load) ["F0"; "F2"]
    ∧ (0 < required_wait (reg_ready_cycle after_load)
             (current_cycle after_load) ["F0"; "F2"] →
       first_max_source (reg_ready_cycle after_load)
         (current_cycle after_load) ["F0"; "F2"]
       = Some wait_reg)
    ∧ current_cycle (analyze_line after_load "ADD.D F4, F0, F2")
      = current_cycle after_load
        + required_wait (reg_ready_cycle after_load)
            (current_cycle after_load) ["F0"; "F2"] + 1
    ∧ total_stalls (analyze_line after_load "ADD.D F4, F0, F2")
      = total_stalls after_load
        + required_wait (reg_ready_cycle after_load)
            (current_cycle after_load) ["F0"; "F2"]
    ∧ (∀ (wr : string) (s : loop_state),
         current_cycle (bubble wr s) = current_cycle s + 1
         ∧ total_stalls (bubble wr s) = total_stalls s + 1
         ∧ reg_ready_cycle (bubble wr s) = reg_ready_cycle s).
Proof.
  apply (bubbles_before_operation after_load "ADD.D F4, F0, F2"
           (Some "ADD.D") (Some "F4") ["F0"; "F2"]).
  - vm_compute. discriminate.
  - vm_compute. reflexivity.
  - discriminate.
Defined.

(** C2: the cycle printed for an operation is never earlier than the ready
    cycle of any of its sources that the readiness table holds when the
    line is processed.  The statement is for an arbitrary loop state, of which
    the states met while analysing a sequence are instances. *)
Theorem sources_ready_at_issue (st : loop_state) (line : string)
    (op dest : option string) (srcs : list string) :
  PyStr.strip line ≠ EmptyString →
  parse_instr (PyStr.strip line) = (op, dest, srcs) →
  op ≠ Some "LABEL" →
  ∃ c : Z,
    last (printed (analyze_line st line))
    = Some (Row c (PyStr.strip line) (Executa op))
    ∧ current_cycle st ≤ c
    ∧ ∀ (src : string) (ready_at : Z),
        src ∈ srcs → reg_ready_cycle st !! src = Some ready_at →
        ready_at ≤ c.
Proof.
  intros Hne Hp Hlab.
  rewrite (analyze_line_issue st line op dest srcs Hne Hp Hlab).
  destruct (issue_spec (PyStr.strip line) op dest srcs st) as (wr & _ & ->).
  pose proof (required_wait_nonneg (reg_ready_cycle st) (current_cycle st) srcs).
  eexists. cbn [printed]. split; [|split].
  - rewrite !app_assoc. apply last_snoc.
  - lia.
  - intros src ra Hin Hl. eapply required_wait_covers; eassumption.
Qed.

Lemma sources_ready_at_issue_witness :
  ∃ c : Z,
    last (printed (analyze_line after_load "ADD.D F4, F0, F2"))
    = Some (Row c (PyStr.strip "ADD.D F4, F0, F2") (Executa (Some "ADD.D")))
    ∧ current_cycle after_load ≤ c
    ∧ ∀ (src : string) (ready_at : Z),
        src ∈ ["F0"; "F2"] → reg_ready_cycle after_load !! src = Some ready_at →
        ready_at ≤ c.
Proof.
  apply (sources_ready_at_issue after_load "ADD.D F4, F0, F2"
           (Some "ADD.D") (Some "F4") ["F0"; "F2"]).
  - vm_compute. discriminate.
  - vm_compute. reflexivity.
  - discriminate.
Defined.

(** C3: an operation with a destination leaves the readiness table equal to
    the old one with the destination bound to the printed issue cycle plus
    the latency of its mnemonic, whatever the table held for that register
    before, all other registers keeping their entries; a line without a
    destination, a label and a blank line leave the table as it was. *)
Theorem table_update (st : loop_state) (line : string)
    (op dest : option string) (srcs : list string) :
  parse_instr (PyStr.strip line) = (op, dest, srcs) →
  (PyStr.strip line ≠ EmptyString → op ≠ Some "LABEL" →
   ∀ d : string, dest = Some d →
     ∃ (o : string) (c : Z),
       op = Some o
       ∧ last (printed (analyze_line st line))
         = Some (Row c (PyStr.strip line) (Executa op))
       ∧ reg_ready_cycle (analyze_line st line)
         = <[d := c + get_latency o]> (reg_ready_cycle st)
       ∧ reg_ready_cycle (analyze_line st line) !! d
         = Some (c + get_latency o)
       ∧ ∀ r : string, r ≠ d →
           reg_ready_cycle (analyze_line st line) !! r
           = reg_ready_cycle st !! r)
  ∧ (PyStr.strip line = EmptyString ∨ op = Some "LABEL" ∨ dest = None →
     reg_ready_cycle (analyze_line st line) = reg_ready_cycle st).
Proof.
  intros Hp. split.
  - intros Hne Hlab d ->.
    destruct (parse_instr_dest _ _ _ _ Hp) as [[o ->] Hd].
    rewrite (analyze_line_issue st line _ _ srcs Hne Hp Hlab).
    destruct (issue_spec (PyStr.strip line) (Some o) (Some d) srcs st)
      as (wr & _ & ->).
    cbn [printed reg_ready_cycle]. rewrite Hd.
    exists o. eexists. split; [reflexivity|]. split; [|split; [|split]].
    + rewrite !app_assoc. apply last_snoc.
    + reflexivity.
    + apply lookup_insert_eq.
    + intros r Hr. apply lookup_insert_ne. congruence.
  - intros H.
    destruct (decide (PyStr.strip line = EmptyString)) as [Hb|Hnb].
    { rewrite analyze_line_blank by assumption. reflexivity. }
    destruct (decide (op = Some "LABEL")) as [Hl|Hnl].
    { rewrite analyze_line_label; [reflexivity|assumption|].
      rewrite Hp, Hl. reflexivity. }
    destruct H as [H|[H|H]]; [contradiction|contradiction|subst dest].
    rewrite (analyze_line_issue st line _ _ srcs Hnb Hp Hnl).
    destruct (issue_spec (PyStr.strip line) op None srcs st) as (wr & _ & ->).
    reflexivity.
Qed.

Lemma table_update_witness :
  ∃ (o : string) (c : Z),
    Some "ADD.D" = Some o
    ∧ last (printed (analyze_line after_load "ADD.D F4, F0, F2"))
      = Some (Row c (PyStr.strip "ADD.D F4, F0, F2") (Executa (Some "ADD.D")))
    ∧ reg_ready_cycle (analyze_line after_load "ADD.D F4, F0, F2")
      = <["F4" := c + get_latency o]> (reg_ready_cycle after_load)
    ∧ reg_ready_cycle (analyze_line after_load "ADD.D F4, F0, F2") !! "F4"
      = Some (c + get_latency o)
    ∧ ∀ r : string, r ≠ "F4" →
        reg_ready_cycle (analyze_line after_load "ADD.D F4, F0, F2") !! r
        = reg_ready_cycle after_load !! r.
Proof.
  apply (proj1 (table_update after_load "ADD.D F4, F0, F2"
                  (Some "ADD.D") (Some "F4") ["F0"; "F2"] eq_refl)).
  - vm_compute. discriminate.
  - discriminate.
  - reflexivity.
Defined.

Example table_overwrite :
  reg_ready_cycle
    (fold_left analyze_line ["L.D F0, 0(R1)"; "ADD F0, R2, R3"]
       (start new_simulator)) !! "F0"
  = Some 3.
Proof. vm_compute. reflexivity. Qed.

(** ** The schedule of a run *)

Lemma schedule_from_bubbles (n : nat) (wr : string) (X : list row) :
  ∀ (c k : Z),
    schedule_from k (bubble_rows c n wr ++ X)
    = schedule_from (k + Z.of_nat n) X.
Proof.
  induction n as [|n IH]; intros c k.
  - cbn. f_equal. lia.
  - rewrite bubble_rows_S. cbn [app schedule_from row_action].
    rewrite IH. f_equal. lia.
Qed.

(** What the loop keeps true of the rows printed so far: the schedule of any
    continuation is appended to theirs, and a continuation that is spaced
    from the last issued cycle makes the whole schedule spaced. *)
Lemma analyze_line_schedule (st : loop_state) (line : string) :
  (∀ X, schedule (printed st ++ X) = schedule (printed st) ++ schedule X) →
  (∀ X, label_spaced_after (current_cycle st - 1) (schedule X) →
        label_spaced_after 0 (schedule (printed st ++ X))) →
  (∀ X, schedule (printed (analyze_line st line) ++ X)
        = schedule (printed (analyze_line st line)) ++ schedule X)
  ∧ (∀ X, label_spaced_after
            (current_cycle (analyze_line st line) - 1) (schedule X) →
          label_spaced_after 0 (schedule (printed (analyze_line st line) ++ X))).
Proof.
  intros Happ Hsp.
  destruct (decide (PyStr.strip line = EmptyString)) as [Hb|Hnb].
  { rewrite analyze_line_blank by assumption. split; assumption. }
  destruct (parse_instr (PyStr.strip line)) as [[op dest] srcs] eqn:Hp.
  destruct (decide (op = Some "LABEL")) as [Hl|Hnl].
  - rewrite analyze_line_label by (try assumption; rewrite Hp, Hl; reflexivity).
    cbn [printed current_cycle]. split; intros X.
    + rewrite <- app_assoc, !Happ. rewrite <- app_assoc. reflexivity.
    + intros HX. rewrite <- app_assoc. apply Hsp.
      cbn [app schedule schedule_from row_action row_cycle
           label_spaced_after entry_is_label issue_cycle stalls_inserted].
      repeat split; [lia|exact HX].
  - rewrite (analyze_line_issue st line _ _ _ Hnb Hp Hnl).
    destruct (issue_spec (PyStr.strip line) op dest srcs st) as (wr & _ & ->).
    pose proof (required_wait_nonneg (reg_ready_cycle st) (current_cycle st)
                  srcs) as Hnn.
    cbn [printed current_cycle].
    set (w := required_wait (reg_ready_cycle st) (current_cycle st) srcs) in *.
    set (N := bubble_rows (current_cycle st) (Z.to_nat w) wr
              ++ [Row (current_cycle st + w) (PyStr.strip line) (Executa op)]).
    assert (Hnew : ∀ X,
              schedule (N ++ X)
              = Entry (current_cycle st + w) w false :: schedule X).
    { intros X. unfold schedule, N.
      rewrite <- app_assoc, schedule_from_bubbles.
      cbn [app schedule_from row_action row_cycle].
      rewrite Z2Nat.id by lia. reflexivity. }
    assert (HN : schedule N = [Entry (current_cycle st + w) w false]).
    { rewrite <- (app_nil_r N). apply Hnew. }
    split; intros X.
    + rewrite <- app_assoc, !Happ, Hnew, HN, <- app_assoc. reflexivity.
    + intros HX. rewrite <- app_assoc. apply Hsp. rewrite Hnew.
      cbn [label_spaced_after entry_is_label issue_cycle stalls_inserted].
      replace (current_cycle st + w + 1 - 1) with (current_cycle st + w)
        in HX by lia.
      repeat split; [lia|lia|exact HX].
Qed.

Lemma fold_analyze_line_schedule (lines : list string) : ∀ st : loop_state,
  (∀ X, schedule (printed st ++ X) = schedule (printed st) ++ schedule X) →
  (∀ X, label_spaced_after (current_cycle st - 1) (schedule X) →
        label_spaced_after 0 (schedule (printed st ++ X))) →
  label_spaced_after 0 (schedule (printed (fold_left analyze_line lines st))).
Proof.
  induction lines as [|line lines IH]; intros st Happ Hsp.
  - cbn [fold_left]. rewrite <- (app_nil_r (printed st)). apply Hsp. exact I.
  - cbn [fold_left].
    destruct (analyze_line_schedule st line Happ Hsp) as [Happ' Hsp'].
    apply IH; assumption.
Qed.

Lemma label_spaced_issued (es : list entry) : ∀ prev : Z,
  label_spaced_after prev es → spaced_after prev (issued es).
Proof.
  induction es as [|e es IH]; intros prev H; [exact I|].
  cbn [label_spaced_after] in H. unfold issued. cbn [List.filter].
  destruct (entry_is_label e); cbn [negb].
  - apply IH. tauto.
  - destruct H as (Hc & Hs & Hrest). cbn [spaced_after].
    repeat split; [lia|exact Hc|]. apply IH. exact Hrest.
Qed.

Lemma start_schedule (self : simulator) :
  (∀ X, schedule (printed (start self) ++ X)
        = schedule (printed (start self)) ++ schedule X)
  ∧ (∀ X, label_spaced_after (current_cycle (start self) - 1) (schedule X) →
          label_spaced_after 0 (schedule (printed (start self) ++ X))).
Proof. split; intros X; cbn; trivial. Qed.

(** C5, as the code has it: a label is printed at the cycle the next
    instruction or bubble will take and does not advance the counter, so it
    shares its cycle with the row after it.  Every entry's cycle is one more
    than the cycle of the last instruction issued before it (0 when there is
    none) plus the stalls inserted before the entry, which are none for a
    label; hence among the issued instructions the cycles strictly increase
    and each is 1 + the previous one + the stalls inserted. *)
Theorem schedule_spacing (self : simulator) (code_str : string) :
  label_spaced_after 0 (schedule (rows (snd (analyze self code_str))))
  ∧ spaced (issued (schedule (rows (snd (analyze self code_str))))).
Proof.
  assert (H : label_spaced_after 0
                (schedule (rows (snd (analyze self code_str))))).
  { unfold analyze, run_lines. cbn [snd rows].
    destruct (start_schedule (reset self)) as [Happ Hsp].
    apply fold_analyze_line_schedule; assumption. }
  split; [exact H|]. apply label_spaced_issued. exact H.
Qed.

(** C5 as stated fails on a label followed by an instruction: both entries
    carry cycle 1. *)
Lemma schedule_spacing_label_counterexample :
  schedule (rows (snd (analyze new_simulator code_label)))
  = [Entry 1 0 true; Entry 1 0 false]
  ∧ ¬ spaced (schedule (rows (snd (analyze new_simulator code_label)))).
Proof.
  assert (E : schedule (rows (snd (analyze new_simulator code_label)))
              = [Entry 1 0 true; Entry 1 0 false])
    by (vm_compute; reflexivity).
  split; [exact E|]. rewrite E. unfold spaced.
  cbn [spaced_after issue_cycle stalls_inserted]. lia.
Qed.

(** ** Independence of runs *)

(** C8: the report of a run, and the table it leaves in the object, do not
    depend on the object it is started on: a run after any other run gives
    what a run on a new object gives, and a second run of the same text
    repeats the first. *)
Theorem runs_do_not_leak (self : simulator) (s1 s2 : string) :
  analyze (fst (analyze self s1)) s2 = analyze new_simulator s2
  ∧ snd (analyze (fst (analyze self s1)) s1) = snd (analyze self s1).
Proof. split; reflexivity. Qed.

(** The reset is what makes this true: the loop started on the table a run
    on [code_D] leaves behind stalls where a reset table does not. *)
Example stale_table_stalls :
  total_stalls
    (run_lines (fst (analyze new_simulator code_D)) ["ADD.D F1, F12, F8"])
  = 12
  ∧ total_stalls (run_lines new_simulator ["ADD.D F1, F12, F8"]) = 0.
Proof. split; vm_compute; reflexivity. Qed.

(** ** Empty input and the summary's instruction count *)

Lemma lstrip_blank (s : string) : blank s = true → PyStr.lstrip s = EmptyString.
Proof.
  unfold blank. induction s as [|c s IH]; cbn; [reflexivity|].
  intros H. apply andb_true_iff in H as [Hc Hs]. rewrite Hc. apply IH, Hs.
Qed.

Lemma strip_blank (s : string) : blank s = true → PyStr.strip s = EmptyString.
Proof. intros H. unfold PyStr.strip. rewrite lstrip_blank by assumption. reflexivity. Qed.

(** C9, as the code has it: on an empty or whitespace-only text no row is
    printed and the stall and cycle totals are 0, but the summary's
    instruction count is 1, the length of [''.split('\n')]. *)
Theorem analyze_blank (self : simulator) (code_str : string) :
  blank code_str = true →
  snd (analyze self code_str) = Report [] 1 0 0.
Proof.
  intros H. unfold analyze, lines_of. rewrite (strip_blank _ H). reflexivity.
Qed.

Lemma analyze_blank_witness :
  snd (analyze new_simulator "") = Report [] 1 0 0
  ∧ snd (analyze new_simulator (" " +:+ nl +:+ "  ")) = Report [] 1 0 0.
Proof.
  split.
  - apply (analyze_blank new_simulator ""). reflexivity.
  - apply (analyze_blank new_simulator (" " +:+ nl +:+ "  ")). reflexivity.
Defined.

Lemma required_wait_absent (tbl : gmap string Z) (cur : Z) (srcs : list string) :
  (∀ s, s ∈ srcs → tbl !! s = None) → required_wait tbl cur srcs = 0.
Proof.
  induction srcs as [|a t IH]; intros H; [reflexivity|].
  rewrite required_wait_cons. unfold wait_of at 1.
  rewrite (H a) by (apply elem_of_cons; left; reflexivity). cbn.
  apply IH. intros s Hs. apply H. apply elem_of_cons. right. exact Hs.
Qed.

Lemma decoded_cons (line : string) (lines : list string) :
  decoded (line :: lines)
  = match decoded_line line with
    | Some d => d :: decoded lines
    | None => decoded lines
    end.
Proof. reflexivity. Qed.

(** A run without producer/consumer pairs: no stall, one cycle per issued
    instruction.  [written] bounds the registers the table holds. *)
Lemma independent_fold (lines : list string) :
  ∀ (st : loop_state) (written : list string),
    (∀ r, is_Some (reg_ready_cycle st !! r) → r ∈ written) →
    independent_after written (decoded lines) = true →
    total_stalls (fold_left analyze_line lines st) = total_stalls st
    ∧ current_cycle (fold_left analyze_line lines st)
      = current_cycle st + Z.of_nat (length (decoded lines)).
Proof.
  induction lines as [|line lines IH]; intros st written Hkeys Hind.
  - cbn. lia.
  - cbn [fold_left]. rewrite decoded_cons in *. unfold decoded_line in *.
    destruct (decide (PyStr.strip line = EmptyString)) as [Hb|Hnb].
    { rewrite analyze_line_blank by assumption. rewrite Hb in *.
      cbn in Hind |- *. eapply IH; eassumption. }
    pose proof (proj2 (PyStrFacts.truthy_nonempty _) Hnb) as Ht.
    rewrite Ht in *.
    destruct (parse_instr (PyStr.strip line)) as [[op dest] srcs] eqn:Hp.
    cbn [fst] in *.
    destruct (is_label_op op) eqn:Hl.
    + rewrite analyze_line_label by (try assumption; rewrite Hp; exact Hl).
      destruct (IH {| reg_ready_cycle := reg_ready_cycle st;
                      current_cycle := current_cycle st;
                      total_stalls := total_stalls st;
                      printed := printed st
                                 ++ [Row (current_cycle st)
                                       (PyStr.strip line) Label] |}
                   written Hkeys Hind) as [H1 H2].
      split; assumption.
    + apply is_label_op_false in Hl.
      rewrite (analyze_line_issue st line _ _ _ Hnb Hp Hl).
      destruct (issue_spec (PyStr.strip line) op dest srcs st) as (wr & _ & ->).
      cbn [independent_after] in Hind.
      apply andb_true_iff in Hind as [Hsrcs Hrest].
      assert (Hw : required_wait (reg_ready_cycle st) (current_cycle st) srcs
                   = 0).
      { apply required_wait_absent. intros s Hs.
        rewrite forallb_forall in Hsrcs.
        specialize (Hsrcs s (proj1 (list_elem_of_In _ _) Hs)).
        apply negb_true_iff, not_true_iff_false in Hsrcs.
        rewrite PyStrFacts.in_list_In in Hsrcs.
        destruct (reg_ready_cycle st !! s) eqn:E; [|reflexivity].
        exfalso. apply Hsrcs, Hkeys. rewrite E. eauto. }
      rewrite Hw. cbv zeta.
      match goal with
      | |- context [fold_left analyze_line lines ?s] =>
          destruct (IH s (match dest with
                          | Some d => d :: written
                          | None => written
                          end)) as [H1 H2]
      end.
      * cbn [reg_ready_cycle]. intros r Hr.
        destruct dest as [d|]; [|apply Hkeys, Hr].
        destruct (PyStr.truthy d).
        -- destruct (decide (d = r)) as [->|Hne];
             [apply elem_of_cons; left; reflexivity|].
           rewrite lookup_insert_ne in Hr by assumption.
           apply elem_of_cons. right. apply Hkeys, Hr.
        -- apply elem_of_cons. right. apply Hkeys, Hr.
      * exact Hrest.
      * rewrite H1, H2. cbn [total_stalls current_cycle length].
        split; lia.
Qed.

(** The part of C6 that holds on every input: without a source that an
    earlier instruction writes, no stall is inserted and the elapsed cycles
    are the number of instructions issued. *)
Lemma independent_no_stall (self : simulator) (code_str : string) :
  independent (lines_of code_str) = true →
  bolhas (snd (analyze self code_str)) = 0
  ∧ exec_cycles (snd (analyze self code_str))
    = Z.of_nat (length (decoded (lines_of code_str))).
Proof.
  intros H. unfold analyze, run_lines. cbn [snd bolhas exec_cycles].
  destruct (independent_fold (lines_of code_str) (start (reset self)) [])
    as [H1 H2].
  - cbn. intros r Hr. rewrite lookup_empty in Hr. destruct Hr; discriminate.
  - exact H.
  - rewrite H1, H2. cbn. split; lia.
Qed.

(** C6 on two independent instructions separated by a blank line: no stall
    and two elapsed cycles, while the summary counts three instructions. *)
Theorem independent_gap_count :
  independent (lines_of code_gap) = true
  ∧ snd (analyze new_simulator code_gap)
    = Report
        [Row 1 "ADD R4, R5, R6" (Executa (Some "ADD"));
         Row 2 "OR R7, R8, R9" (Executa (Some "OR"))]
        3 0 2
  ∧ Z.of_nat (instrucoes_uteis (snd (analyze new_simulator code_gap)))
    ≠ exec_cycles (snd (analyze new_simulator code_gap)).
Proof.
  split; [vm_compute; reflexivity|].
  assert (E : snd (analyze new_simulator code_gap)
              = Report
                  [Row 1 "ADD R4, R5, R6" (Executa (Some "ADD"));
                   Row 2 "OR R7, R8, R9" (Executa (Some "OR"))]
                  3 0 2) by (vm_compute; reflexivity).
  split; [exact E|]. rewrite E. cbn. lia.
Qed.

(** ** Characters of the pieces the decoder cuts *)

Section Characters.
Import PyStr.
Variable c : ascii.

Lemma contains_lstrip (s : string) :
  contains c (lstrip s) = true → contains c s = true.
Proof.
  induction s as [|a s IH]; cbn; [trivial|].
  destruct (isspace a); [|trivial].
  intros H. rewrite (IH H). apply orb_true_r.
Qed.

Lemma contains_rstrip (s : string) :
  contains c (rstrip s) = true → contains c s = true.
Proof.
  induction s as [|a s IH]; cbn; [trivial|].
  destruct (rstrip s) as [|b r].
  - destruct (isspace a); cbn; [discriminate|].
    rewrite orb_false_r. intros ->. reflexivity.
  - cbn [contains] in *. intros H.
    apply orb_true_iff in H as [H|H]; [rewrite H; reflexivity|].
    rewrite (IH H). apply orb_true_r.
Qed.

Lemma contains_strip (s : string) :
  contains c (strip s) = true → contains c s = true.
Proof. intros H. apply contains_lstrip, contains_rstrip, H. Qed.

Lemma contains_remove_char (d : ascii) (s : string) :
  contains c (remove_char d s) = true → contains c s = true.
Proof.
  induction s as [|a s IH]; cbn; [trivial|].
  destruct (Ascii.eqb a d); cbn.
  - intros H. rewrite (IH H). apply orb_true_r.
  - intros H. apply orb_true_iff in H as [H|H]; [rewrite H; reflexivity|].
    rewrite (IH H). apply orb_true_r.
Qed.

Lemma contains_split (sep : ascii) (s : string) : ∀ p : string,
  p ∈ split sep s → contains c p = true → contains c s = true.
Proof.
  induction s as [|a s IH]; intros p Hin Hc; cbn in Hin.
  - apply list_elem_of_singleton in Hin. subst p. discriminate.
  - cbn [contains]. destruct (Ascii.eqb a sep).
    + apply elem_of_cons in Hin as [->|Hin]; [discriminate|].
      rewrite (IH p Hin Hc). apply orb_true_r.
    + destruct (split sep s) as [|h t] eqn:E.
      * apply list_elem_of_singleton in Hin. subst p. cbn in Hc.
        rewrite orb_false_r in Hc. rewrite Hc. reflexivity.
      * apply elem_of_cons in Hin as [->|Hin].
        -- cbn in Hc. apply orb_true_iff in Hc as [Hc|Hc];
             [rewrite Hc; reflexivity|].
           rewrite (IH h) by (try assumption; apply elem_of_cons; tauto).
           apply orb_true_r.
        -- rewrite (IH p) by (try assumption; apply elem_of_cons; tauto).
           apply orb_true_r.
Qed.

Lemma contains_re_split (s : string) : ∀ (in_run : bool) (p : string),
  p ∈ re_split_from in_run s → contains c p = true → contains c s = true.
Proof.
  induction s as [|a s IH]; intros in_run p Hin Hc; cbn in Hin.
  - apply list_elem_of_singleton in Hin. subst p. discriminate.
  - cbn [contains]. destruct (is_sep a).
    + assert (p ∈ re_split_from true s) as Hin'.
      { destruct in_run; [exact Hin|].
        apply elem_of_cons in Hin as [->|Hin]; [discriminate|exact Hin]. }
      rewrite (IH _ p Hin' Hc). apply orb_true_r.
    + destruct (re_split_from false s) as [|h t] eqn:E.
      * apply list_elem_of_singleton in Hin. subst p. cbn in Hc.
        rewrite orb_false_r in Hc. rewrite Hc. reflexivity.
      * apply elem_of_cons in Hin as [->|Hin].
        -- cbn in Hc. apply orb_true_iff in Hc as [Hc|Hc];
             [rewrite Hc; reflexivity|].
           rewrite (IH false h) by (try assumption; rewrite E;
                                    apply elem_of_cons; tauto).
           apply orb_true_r.
        -- rewrite (IH false p) by (try assumption; rewrite E;
                                    apply elem_of_cons; tauto).
           apply orb_true_r.
Qed.

(** A piece of [re.split] holds no separator. *)
Lemma re_split_no_sep (s : string) : ∀ (in_run : bool) (p : string),
  p ∈ re_split_from in_run s → is_sep c = true → contains c p = false.
Proof.
  induction s as [|a s IH]; intros in_run p Hin Hsep; cbn in Hin.
  - apply list_elem_of_singleton in Hin. subst p. reflexivity.
  - destruct (is_sep a) eqn:Ea.
    + destruct in_run; [eapply IH; eassumption|].
      apply elem_of_cons in Hin as [->|Hin]; [reflexivity|].
      eapply IH; eassumption.
    + destruct (re_split_from false s) as [|h t] eqn:E.
      * apply list_elem_of_singleton in Hin. subst p. cbn.
        rewrite orb_false_r. apply Ascii.eqb_neq. intros ->. congruence.
      * apply elem_of_cons in Hin as [->|Hin].
        -- cbn. apply orb_false_iff. split.
           ++ apply Ascii.eqb_neq. intros ->. congruence.
           ++ apply (IH false); [rewrite E; apply elem_of_cons; tauto
                                |assumption].
        -- apply (IH false); [rewrite E; apply elem_of_cons; tauto
                             |assumption].
Qed.

(** The text before the first separator holds no separator. *)
Lemma split_hd_clean (s : string) :
  contains c (hd EmptyString (split c s)) = false.
Proof.
  induction s as [|a s IH]; cbn; [reflexivity|].
  destruct (Ascii.eqb a c) eqn:E; [reflexivity|].
  destruct (split c s) as [|h t]; cbn in *; rewrite E; [reflexivity|].
  exact IH.
Qed.

Lemma split_hd_app (pre post : string) :
  contains c pre = false →
  hd EmptyString (split c (pre +:+ String c post)) = pre.
Proof.
  induction pre as [|a pre IH].
  - intros _. change (EmptyString +:+ String c post) with (String c post).
    cbn. rewrite Ascii.eqb_refl. reflexivity.
  - change (String a pre +:+ String c post)
      with (String a (pre +:+ String c post)).
    cbn. intros H. apply orb_false_iff in H as [Ha Hpre]. rewrite Ha.
    specialize (IH Hpre).
    destruct (split c (pre +:+ String c post)) as [|h t]; cbn in *;
      congruence.
Qed.

Lemma split_hd_id (s : string) :
  contains c s = false → hd EmptyString (split c s) = s.
Proof.
  induction s as [|a s IH]; cbn; [reflexivity|].
  intros H. apply orb_false_iff in H as [Ha Hs]. rewrite Ha.
  specialize (IH Hs). destruct (split c s) as [|h t]; cbn in *; congruence.
Qed.

End Characters.

(** ** Where decoded registers come from *)

Lemma mem_base_chars (c : ascii) (p : string) :
  PyStr.contains c (mem_base p) = true → PyStr.contains c p = true.
Proof.
  unfold mem_base. intros H. apply contains_remove_char in H.
  destruct (PyStr.split "(" p !! 1%nat) as [q|] eqn:E; [|discriminate].
  eapply contains_split; [|exact H]. eapply list_elem_of_lookup_2, E.
Qed.

Lemma operand_fold_origin (f : list string → string → list string) :
  (∀ acc p s, s ∈ f acc p → s ∈ acc ∨ s = p ∨ s = mem_base p) →
  ∀ (args acc : list string) (s : string),
    s ∈ fold_left f args acc →
    s ∈ acc ∨ ∃ p, p ∈ args ∧ (s = p ∨ s = mem_base p).
Proof.
  intros Hf. induction args as [|a args IH]; intros acc s Hs; cbn in Hs.
  - left. exact Hs.
  - destruct (IH _ _ Hs) as [H|(p & Hp & H)].
    + destruct (Hf _ _ _ H) as [H'|H']; [left; exact H'|].
      right. exists a. split; [apply elem_of_cons; tauto|exact H'].
    + right. exists p. split; [apply elem_of_cons; tauto|exact H].
Qed.

Lemma store_branch_operand_origin (acc : list string) (p s : string) :
  s ∈ store_branch_operand acc p → s ∈ acc ∨ s = p ∨ s = mem_base p.
Proof.
  unfold store_branch_operand.
  repeat match goal with
         | |- context [if ?b then _ else _] => destruct b
         end.
  all: rewrite ?elem_of_app, ?list_elem_of_singleton; tauto.
Qed.

Lemma default_operand_origin (acc : list string) (p s : string) :
  s ∈ default_operand acc p → s ∈ acc ∨ s = p ∨ s = mem_base p.
Proof.
  unfold default_operand. destruct (PyStr.contains "(" p).
  all: rewrite ?elem_of_app, ?list_elem_of_singleton; tauto.
Qed.

(** Every decoded source is a token of the line or the base of one; a
    decoded destination is a token. *)
Lemma parse_instr_origin (line : string) (op dest : option string)
    (srcs : list string) :
  parse_instr line = (op, dest, srcs) →
  (∀ s, s ∈ srcs → ∃ p, p ∈ parts_of line ∧ (s = p ∨ s = mem_base p))
  ∧ (∀ d, dest = Some d → d ∈ parts_of line).
Proof.
  unfold parse_instr. destruct (parts_of line) as [|p0 args]; [|].
  { intros [= <- <- <-]. split; [intros s Hs; inversion Hs|discriminate]. }
  destruct (PyStr.endswith _ _).
  { intros [= <- <- <-]. split; [intros s Hs; inversion Hs|discriminate]. }
  destruct (PyStr.in_list _ _).
  - intros [= <- <- <-]. split; [|discriminate]. intros s Hs.
    apply (operand_fold_origin _ store_branch_operand_origin) in Hs
      as [Hs|(p & Hp & H)]; [inversion Hs|].
    exists p. split; [apply elem_of_cons; tauto|exact H].
  - destruct args as [|d rest].
    { intros [= <- <- <-]. split; [intros s Hs; inversion Hs|discriminate]. }
    intros [= <- <- <-]. split.
    + intros s Hs.
      apply (operand_fold_origin _ default_operand_origin) in Hs
        as [Hs|(p & Hp & H)]; [inversion Hs|].
      exists p. split; [do 2 (apply elem_of_cons; right); exact Hp|exact H].
    + intros d' [= <-]. apply elem_of_cons. right. apply elem_of_cons. tauto.
Qed.

(** A character of a token is a character of the text before the comment,
    and is not a separator. *)
Lemma parts_of_chars (c : ascii) (line p : string) :
  p ∈ parts_of line →
  (PyStr.contains c p = true →
   PyStr.contains c (hd EmptyString (PyStr.split "#" line)) = true)
  ∧ (PyStr.is_sep c = true → PyStr.contains c p = false).
Proof.
  unfold parts_of, PyStr.re_split. intros Hin.
  apply list_elem_of_In, filter_In in Hin as [Hin _].
  apply list_elem_of_In in Hin. split.
  - intros Hc. eapply contains_strip, contains_re_split; eassumption.
  - intros Hsep. eapply re_split_no_sep; eassumption.
Qed.

Lemma parse_instr_no_hash (line : string) (op dest : option string)
    (srcs : list string) :
  parse_instr line = (op, dest, srcs) →
  (∀ s, s ∈ srcs → PyStr.contains "#" s = false)
  ∧ (∀ d, dest = Some d → PyStr.contains "#" d = false).
Proof.
  intros Hp. destruct (parse_instr_origin _ _ _ _ Hp) as [Hs Hd].
  assert (Htok : ∀ p, p ∈ parts_of line → PyStr.contains "#" p = false).
  { intros p Hin. apply not_true_iff_false. intros Hc.
    apply (parts_of_chars "#" line p Hin) in Hc.
    rewrite split_hd_clean in Hc. discriminate. }
  split.
  - intros s Hin. destruct (Hs s Hin) as (p & Hpin & [->| ->]);
      [apply Htok, Hpin|].
    apply not_true_iff_false. intros Hc. apply mem_base_chars in Hc.
    rewrite (Htok p Hpin) in Hc. discriminate.
  - intros d Hdest. apply Htok, Hd, Hdest.
Qed.

(** C10: a line is decoded from the text before its first ['#'] alone.  For
    a line [pre # post] with no ['#'] in [pre], the result is that of [pre],
    whatever [post] is, and no decoded source or destination holds a ['#']:
    an immediate written with ['#'] never becomes a source. *)
Theorem comment_discarded (pre post : string) :
  PyStr.contains "#" pre = false →
  parse_instr (pre +:+ "#" +:+ post) = parse_instr pre
  ∧ (∀ s, s ∈ snd (parse_instr (pre +:+ "#" +:+ post)) →
          PyStr.contains "#" s = false)
  ∧ (∀ d, snd (fst (parse_instr (pre +:+ "#" +:+ post))) = Some d →
          PyStr.contains "#" d = false).
Proof.
  intros Hpre.
  destruct (parse_instr (pre +:+ "#" +:+ post)) as [[op dest] srcs] eqn:Hp.
  destruct (parse_instr_no_hash _ _ _ _ Hp) as [Hs Hd].
  split; [|split; assumption].
  rewrite <- Hp. unfold parse_instr, parts_of.
  change ("#" +:+ post) with (String "#" post).
  rewrite split_hd_app, split_hd_id by assumption. reflexivity.
Qed.

Lemma comment_discarded_witness :
  parse_instr ("DADDUI R1, R1, " +:+ "#" +:+ "-8")
  = parse_instr "DADDUI R1, R1, "
  ∧ (∀ s, s ∈ snd (parse_instr ("DADDUI R1, R1, " +:+ "#" +:+ "-8")) →
          PyStr.contains "#" s = false)
  ∧ (∀ d, snd (fst (parse_instr ("DADDUI R1, R1, " +:+ "#" +:+ "-8")))
          = Some d →
          PyStr.contains "#" d = false).
Proof.
  apply (comment_discarded "DADDUI R1, R1, " "-8"). reflexivity.
Defined.

(** ** Operands of stores, branches and jumps *)

Lemma upper_char_prefix (c : ascii) :
  Ascii.eqb (PyStr.upper_char c) "R" || Ascii.eqb (PyStr.upper_char c) "F"
  = existsb (Ascii.eqb c) ["R"; "r"; "F"; "f"]%char.
Proof. destruct c as [[] [] [] [] [] [] [] []]; vm_compute; reflexivity. Qed.

Lemma upper_prefix (p : string) :
  PyStr.startswith "R" (PyStr.upper p) || PyStr.startswith "F" (PyStr.upper p)
  = has_register_prefix p.
Proof. destruct p as [|c p]; [reflexivity|]. cbn. apply upper_char_prefix. Qed.

Lemma letters_to_end_forallb (s : string) :
  PyStr.contains "010" s = false →
  PyStr.letters_to_end s
  = forallb PyStr.is_word_letter (list_ascii_of_string s).
Proof.
  induction s as [|c s IH]; cbn; [reflexivity|].
  intros H. apply orb_false_iff in H as [Hc Hs].
  destruct (PyStr.is_word_letter c); cbn; [apply IH, Hs|].
  rewrite Hc. reflexivity.
Qed.

Lemma re_match_label_pure (p : string) :
  PyStr.contains "010" p = false →
  PyStr.re_match_label p = pure_letters p.
Proof.
  destruct p as [|c p]; [reflexivity|]. cbn. intros H.
  apply orb_false_iff in H as [_ Hp].
  rewrite letters_to_end_forallb by assumption. reflexivity.
Qed.

Lemma pure_letters_no_sigil (p : string) :
  pure_letters p = true → PyStr.contains "$" p = false.
Proof.
  unfold pure_letters. intros H. apply andb_true_iff in H as [_ H].
  induction p as [|c p IH]; [reflexivity|]. cbn in *.
  apply andb_true_iff in H as [Hc Hp]. rewrite (IH Hp), orb_false_r.
  apply Ascii.eqb_neq. intros ->. vm_compute in Hc. discriminate.
Qed.

Lemma store_branch_operand_sources (acc : list string) (p : string) :
  PyStr.contains "010" p = false →
  store_branch_operand acc p = acc ++ store_branch_sources p.
Proof.
  intros Hnl. unfold store_branch_operand, store_branch_sources, is_branch_label.
  destruct (PyStr.contains "(" p); [reflexivity|].
  rewrite (re_match_label_pure p Hnl).
  rewrite <- orb_assoc, upper_prefix.
  destruct (pure_letters p) eqn:Hpure; cbn [negb andb]; [|reflexivity].
  rewrite (pure_letters_no_sigil p Hpure). cbn [orb negb].
  destruct (has_register_prefix p); cbn; [reflexivity|].
  rewrite app_nil_r. reflexivity.
Qed.

Lemma store_branch_fold (args : list string) : ∀ acc : list string,
  (∀ p, p ∈ args → PyStr.contains "010" p = false) →
  fold_left store_branch_operand args acc
  = acc ++ flat_map store_branch_sources args.
Proof.
  induction args as [|a args IH]; intros acc H; cbn [fold_left flat_map].
  - rewrite app_nil_r. reflexivity.
  - rewrite store_branch_operand_sources
      by (apply H, elem_of_cons; tauto).
    rewrite IH by (intros p Hp; apply H, elem_of_cons; tauto).
    rewrite <- app_assoc. reflexivity.
Qed.

Lemma split_app (c : ascii) (pre post : string) :
  PyStr.contains c pre = false →
  PyStr.split c (pre +:+ String c post) = pre :: PyStr.split c post.
Proof.
  induction pre as [|a pre IH].
  - intros _. change (EmptyString +:+ String c post) with (String c post).
    cbn. rewrite Ascii.eqb_refl. reflexivity.
  - change (String a pre +:+ String c post)
      with (String a (pre +:+ String c post)).
    cbn. intros H. apply orb_false_iff in H as [Ha Hpre].
    rewrite Ha, (IH Hpre). reflexivity.
Qed.

Lemma split_none (c : ascii) (s : string) :
  PyStr.contains c s = false → PyStr.split c s = [s].
Proof.
  induction s as [|a s IH]; cbn; [reflexivity|].
  intros H. apply orb_false_iff in H as [Ha Hs]. rewrite Ha, (IH Hs).
  reflexivity.
Qed.

Lemma contains_app (c : ascii) (s t : string) :
  PyStr.contains c (s +:+ t) = PyStr.contains c s || PyStr.contains c t.
Proof.
  induction s as [|a s IH]; [reflexivity|].
  change (String a s +:+ t) with (String a (s +:+ t)). cbn.
  rewrite IH, orb_assoc. reflexivity.
Qed.

Lemma remove_char_closing (c : ascii) (s : string) :
  PyStr.contains c s = false →
  PyStr.remove_char c (s +:+ String c EmptyString) = s.
Proof.
  induction s as [|a s IH].
  - intros _.
    change (EmptyString +:+ String c EmptyString) with (String c EmptyString).
    cbn. rewrite Ascii.eqb_refl. reflexivity.
  - change (String a s +:+ String c EmptyString)
      with (String a (s +:+ String c EmptyString)).
    cbn. intros H. apply orb_false_iff in H as [Ha Hs].
    rewrite Ha, (IH Hs). reflexivity.
Qed.

(** The base register of a memory operand [off(base)]. *)
Lemma mem_base_operand (off base : string) :
  PyStr.contains "(" off = false →
  PyStr.contains "(" base = false →
  PyStr.contains ")" base = false →
  mem_base (off +:+ "(" +:+ base +:+ ")") = base.
Proof.
  intros Hoff Hb1 Hb2. unfold mem_base.
  change ("(" +:+ base +:+ ")") with (String "(" (base +:+ ")")).
  rewrite split_app by assumption.
  rewrite split_none
    by (rewrite contains_app, Hb1; reflexivity).
  cbn [lookup list_lookup default].
  apply remove_char_closing. assumption.
Qed.

Lemma store_branch_op_no_colon (op : string) :
  op ∈ store_branch_ops → PyStr.endswith ":" op = false.
Proof.
  unfold store_branch_ops. rewrite !elem_of_cons, elem_of_nil.
  intros H. repeat (destruct H as [->|H]; [reflexivity|]). destruct H.
Qed.

(** C7: for a line whose mnemonic is one of the store, branch and jump
    mnemonics, the decoded destination is absent and the sources are, in
    operand order: for an operand holding an opening parenthesis, what
    [mem_base] extracts, which for an operand [off(base)] is [base]; for any
    other operand the operand itself, unless it is made of letters and
    underscores only, does not begin with R or F in either case and holds no
    [$], in which case it contributes nothing. *)
Theorem store_branch_decode (line p0 : string) (args : list string) :
  parts_of line = p0 :: args →
  PyStr.upper p0 ∈ store_branch_ops →
  parse_instr line
  = (Some (PyStr.upper p0), None, flat_map store_branch_sources args)
  ∧ (∀ off base : string,
       PyStr.contains "(" off = false →
       PyStr.contains "(" base = false →
       PyStr.contains ")" base = false →
       store_branch_sources (off +:+ "(" +:+ base +:+ ")") = [base])
  ∧ (∀ p : string,
       PyStr.contains "(" p = false →
       store_branch_sources p
       = if pure_letters p && negb (has_register_prefix p)
            && negb (PyStr.contains "$" p)
         then [] else [p]).
Proof.
  intros Hparts Hop. split; [|split].
  - unfold parse_instr. rewrite Hparts. cbv zeta.
    rewrite (store_branch_op_no_colon _ Hop).
    rewrite (proj2 (PyStrFacts.in_list_In _ _) Hop).
    rewrite store_branch_fold; [reflexivity|].
    intros p Hp.
    apply (parts_of_chars "010" line p).
    + rewrite Hparts. apply elem_of_cons. right. exact Hp.
    + reflexivity.
  - intros off base Hoff Hb1 Hb2. unfold store_branch_sources.
    rewrite contains_app.
    change ("(" +:+ base +:+ ")") with (String "(" (base +:+ ")")).
    cbn [PyStr.contains]. rewrite Ascii.eqb_refl, orb_true_r.
    f_equal. apply mem_base_operand; assumption.
  - intros p Hp. unfold store_branch_sources, is_branch_label.
    rewrite Hp. reflexivity.
Qed.

Lemma store_branch_decode_witness :
  parse_instr "S.D F4, 0(R1)"
  = (Some (PyStr.upper "S.D"), None,
     flat_map store_branch_sources ["F4"; "0(R1)"])
  ∧ (∀ off base : string,
       PyStr.contains "(" off = false →
       PyStr.contains "(" base = false →
       PyStr.contains ")" base = false →
       store_branch_sources (off +:+ "(" +:+ base +:+ ")") = [base])
  ∧ (∀ p : string,
       PyStr.contains "(" p = false →
       store_branch_sources p
       = if pure_letters p && negb (has_register_prefix p)
            && negb (PyStr.contains "$" p)
         then [] else [p]).
Proof.
  apply (store_branch_decode "S.D F4, 0(R1)" "S.D" ["F4"; "0(R1)"]).
  - vm_compute. reflexivity.
  - vm_compute. apply elem_of_cons. left. reflexivity.
Defined.

Example branch_label_skipped :
  parse_instr "BEQ R1, R2, EXIT" = (Some "BEQ", None, ["R1"; "R2"])
  ∧ parse_instr "BNE R1, done, Finish" = (Some "BNE", None, ["R1"; "Finish"]).
Proof. split; vm_compute; reflexivity. Qed.

(** ** The script's run *)

Example script_returns : snd script = [4; 5; 6; 5; 12; 14; 3].
Proof. vm_compute. reflexivity. Qed.

(** ** The three shapes of a loop iteration *)

Lemma get_latency_bounds (o : string) : 1 ≤ get_latency o ≤ 10.
Proof.
  unfold get_latency.
  repeat match goal with
         | |- context [if ?b then _ else _] => destruct b
         end; lia.
Qed.

Lemma decoded_line_Some (line : string) (op dest : option string)
    (srcs : list string) :
  decoded_line line = Some (op, dest, srcs) ↔
  PyStr.strip line ≠ EmptyString
  ∧ parse_instr (PyStr.strip line) = (op, dest, srcs)
  ∧ op ≠ Some "LABEL".
Proof.
  unfold decoded_line.
  destruct (PyStr.truthy (PyStr.strip line)) eqn:Ht.
  - apply PyStrFacts.truthy_nonempty in Ht.
    destruct (parse_instr (PyStr.strip line)) as [[op' dest'] srcs'].
    cbn [fst]. destruct (is_label_op op') eqn:El.
    + split; [discriminate|]. intros (_ & [= -> _ _] & Hl).
      apply is_label_op_false in Hl. congruence.
    + apply is_label_op_false in El. split.
      * intros [= <- <- <-]. auto.
      * intros (_ & [= <- <- <-] & _). reflexivity.
  - split; [discriminate|]. intros (Hne & _).
    apply PyStrFacts.truthy_nonempty in Hne. congruence.
Qed.

(** Blank or label: nothing decoded, no cycle taken.  Otherwise: the decoded
    instruction, its bubbles, its row and the table update. *)
Lemma analyze_line_cases (st : loop_state) (line : string) :
  (decoded_line line = None
   ∧ reg_ready_cycle (analyze_line st line) = reg_ready_cycle st
   ∧ current_cycle (analyze_line st line) = current_cycle st
   ∧ total_stalls (analyze_line st line) = total_stalls st
   ∧ (printed (analyze_line st line) = printed st
      ∨ printed (analyze_line st line)
        = printed st ++ [Row (current_cycle st) (PyStr.strip line) Label]))
  ∨ (∃ (op dest : option string) (srcs : list string) (wr : string),
       decoded_line line = Some (op, dest, srcs)
       ∧ analyze_line st line
         = let w := required_wait (reg_ready_cycle st) (current_cycle st) srcs
           in
           {| reg_ready_cycle :=
                match dest with
                | Some d =>
                    <[d := current_cycle st + w
                           + match op with
                             | Some o => get_latency o
                             | None => 1
                             end]> (reg_ready_cycle st)
                | None => reg_ready_cycle st
                end;
              current_cycle := current_cycle st + w + 1;
              total_stalls := total_stalls st + w;
              printed :=
                printed st
                ++ bubble_rows (current_cycle st) (Z.to_nat w) wr
                ++ [Row (current_cycle st + w) (PyStr.strip line)
                      (Executa op)] |}).
Proof.
  destruct (decoded_line line) as [[[op dest] srcs]|] eqn:Ed.
  - right. apply decoded_line_Some in Ed as (Hne & Hp & Hl).
    rewrite (analyze_line_issue st line _ _ _ Hne Hp Hl).
    destruct (issue_spec (PyStr.strip line) op dest srcs st) as (wr & _ & ->).
    exists op, dest, srcs, wr. split; [reflexivity|].
    cbv zeta. f_equal. destruct dest as [d|]; [|reflexivity].
    destruct (parse_instr_dest _ _ _ _ Hp) as [_ ->]. reflexivity.
  - left. split; [reflexivity|].
    destruct (decide (PyStr.strip line = EmptyString)) as [Hb|Hnb].
    + rewrite analyze_line_blank by assumption. auto.
    + rewrite analyze_line_label; [cbn; auto|assumption|].
      unfold decoded_line in Ed.
      rewrite (proj2 (PyStrFacts.truthy_nonempty _) Hnb) in Ed.
      destruct (is_label_op _); [reflexivity|discriminate].
Qed.

Lemma required_wait_le (tbl : gmap string Z) (cur m : Z) (srcs : list string) :
  0 ≤ m →
  (∀ src ready_at, src ∈ srcs → tbl !! src = Some ready_at →
                   ready_at ≤ cur + m) →
  required_wait tbl cur srcs ≤ m.
Proof.
  intros Hm. induction srcs as [|a t IH]; intros H.
  - unfold required_wait. cbn. lia.
  - rewrite required_wait_cons.
    assert (required_wait tbl cur t ≤ m) as Ht.
    { apply IH. intros src ra Hin. apply H, elem_of_cons. tauto. }
    unfold wait_of. destruct (tbl !! a) as [ra|] eqn:Ea; cbn; [|exact Ht].
    specialize (H a ra (proj2 (elem_of_cons _ _ _) (or_introl eq_refl)) Ea).
    lia.
Qed.

(** A property of the loop state kept by every iteration holds after a run. *)
Lemma run_lines_ind (P : loop_state → Prop) (self : simulator)
    (lines : list string) :
  P (start self) →
  (∀ st line, P st → P (analyze_line st line)) →
  P (run_lines self lines).
Proof.
  intros H0 Hstep. unfold run_lines. generalize (start self) H0.
  induction lines as [|l lines IH]; intros st Hst; [exact Hst|].
  cbn [fold_left]. apply IH, Hstep, Hst.
Qed.

(** ** Cycle accounting *)

Lemma fold_cycle_accounting (lines : list string) : ∀ st : loop_state,
  current_cycle (fold_left analyze_line lines st)
  - total_stalls (fold_left analyze_line lines st)
  = current_cycle st - total_stalls st + Z.of_nat (length (decoded lines))
  ∧ total_stalls st ≤ total_stalls (fold_left analyze_line lines st).
Proof.
  induction lines as [|line lines IH]; intros st.
  - cbn. lia.
  - cbn [fold_left]. rewrite decoded_cons.
    destruct (IH (analyze_line st line)) as [H1 H2].
    destruct (analyze_line_cases st line)
      as [(-> & _ & Hc & Hs & _)|(op & dest & srcs & wr & -> & Heq)].
    + rewrite Hc, Hs in *. split; lia.
    + rewrite Heq in *. cbv zeta in *.
      cbn [current_cycle total_stalls length] in *.
      pose proof (required_wait_nonneg (reg_ready_cycle st) (current_cycle st)
                    srcs).
      split; lia.
Qed.

(** X1: every elapsed cycle is either an issued instruction or a bubble: the
    value [analyze] returns is the number of instructions the loop issued
    plus the stalls it counted, and the stall count is not negative. *)
Theorem elapsed_is_issued_plus_stalls (self : simulator) (code_str : string) :
  exec_cycles (snd (analyze self code_str))
  = Z.of_nat (length (decoded (lines_of code_str)))
    + bolhas (snd (analyze self code_str))
  ∧ 0 ≤ bolhas (snd (analyze self code_str)).
Proof.
  unfold analyze, run_lines. cbn [snd exec_cycles bolhas].
  destruct (fold_cycle_accounting (lines_of code_str) (start (reset self)))
    as [H1 H2].
  cbn [start current_cycle total_stalls] in *. split; lia.
Qed.

Lemma bubble_rows_cycles (c : Z) (n : nat) (wr : string) :
  map row_cycle (bubble_rows c n wr) = seqZ c (Z.of_nat n).
Proof.
  unfold bubble_rows, seqZ. rewrite map_map, Nat2Z.id.
  apply map_ext. intros i. cbn. lia.
Qed.

Lemma bubble_rows_occupy (c : Z) (n : nat) (wr : string) :
  List.filter occupies_cycle (bubble_rows c n wr) = bubble_rows c n wr
  ∧ List.filter is_bolha (bubble_rows c n wr) = bubble_rows c n wr.
Proof.
  unfold bubble_rows. induction (seq 0 n) as [|i l [IH1 IH2]]; [split; reflexivity|].
  cbn. rewrite IH1, IH2. split; reflexivity.
Qed.

(** X2: the rows that take a cycle (bubbles and instructions, not labels) carry
    the cycles 1, 2, ..., up to the returned total, each once and in order;
    and the NOP rows are as many as the stall count. *)
Theorem cycles_taken_once (self : simulator) (code_str : string) :
  map row_cycle (List.filter occupies_cycle (rows (snd (analyze self code_str))))
  = seqZ 1 (exec_cycles (snd (analyze self code_str)))
  ∧ Z.of_nat
      (length (List.filter is_bolha (rows (snd (analyze self code_str)))))
    = bolhas (snd (analyze self code_str)).
Proof.
  unfold analyze. cbn [snd rows exec_cycles bolhas].
  assert (H : 1 ≤ current_cycle (run_lines (reset self) (lines_of code_str))
              ∧ map row_cycle
                  (List.filter occupies_cycle
                     (printed (run_lines (reset self) (lines_of code_str))))
                = seqZ 1 (current_cycle
                            (run_lines (reset self) (lines_of code_str)) - 1)
              ∧ Z.of_nat
                  (length
                     (List.filter is_bolha
                        (printed (run_lines (reset self) (lines_of code_str)))))
                = total_stalls (run_lines (reset self) (lines_of code_str))).
  { apply (run_lines_ind
             (λ st, 1 ≤ current_cycle st
                    ∧ map row_cycle (List.filter occupies_cycle (printed st))
                      = seqZ 1 (current_cycle st - 1)
                    ∧ Z.of_nat (length (List.filter is_bolha (printed st)))
                      = total_stalls st)).
    - cbn. split; [lia|]. split; reflexivity.
    - intros st line (Hc & Hrows & Hb).
      destruct (analyze_line_cases st line)
        as [(_ & _ & Ec & Es & [Ep|Ep])|(op & dest & srcs & wr & _ & Heq)].
      + rewrite Ec, Es, Ep. auto.
      + rewrite Ec, Es, Ep, !List.filter_app. cbn [List.filter occupies_cycle
          is_bolha row_action]. rewrite !app_nil_r. auto.
      + rewrite Heq. cbv zeta. cbn [current_cycle total_stalls printed].
        pose proof (required_wait_nonneg (reg_ready_cycle st)
                      (current_cycle st) srcs) as Hw.
        set (w := required_wait (reg_ready_cycle st) (current_cycle st) srcs)
          in *.
        rewrite !List.filter_app.
        destruct (bubble_rows_occupy (current_cycle st) (Z.to_nat w) wr)
          as [-> ->].
        cbn [List.filter occupies_cycle is_bolha row_action].
        rewrite !map_app, Hrows, bubble_rows_cycles, app_nil_r.
        rewrite !length_app, length_bubble_rows. cbn [map row_cycle length].
        rewrite Z2Nat.id by lia. split; [lia|]. split; [|lia].
        replace (current_cycle st + w + 1 - 1)
          with ((current_cycle st - 1) + (w + 1)) by lia.
        rewrite (seqZ_app 1 (current_cycle st - 1) (w + 1)) by lia.
        rewrite (seqZ_app _ w 1) by lia. f_equal.
        replace (1 + (current_cycle st - 1)) with (current_cycle st) by lia.
        reflexivity. }
  destruct H as (_ & H1 & H2). split; assumption.
Qed.

(** ** The schedule, entry by entry *)

Lemma schedule_closed_nil : schedule_closed [].
Proof. intros X. reflexivity. Qed.

Lemma schedule_closed_label (P : list row) (c : Z) (t : string) :
  schedule_closed P →
  schedule_closed (P ++ [Row c t Label])
  ∧ schedule (P ++ [Row c t Label]) = schedule P ++ [Entry c 0 true].
Proof.
  intros HP.
  assert (E : schedule (P ++ [Row c t Label]) = schedule P ++ [Entry c 0 true])
    by (rewrite HP; reflexivity).
  split; [|exact E]. intros X. rewrite E, <- !app_assoc, HP. reflexivity.
Qed.

Lemma schedule_closed_issue (P : list row) (c c' : Z) (n : nat)
    (wr t : string) (op : option string) :
  schedule_closed P →
  schedule_closed (P ++ bubble_rows c n wr ++ [Row c' t (Executa op)])
  ∧ schedule (P ++ bubble_rows c n wr ++ [Row c' t (Executa op)])
    = schedule P ++ [Entry c' (Z.of_nat n) false].
Proof.
  intros HP.
  assert (E : ∀ X, schedule ((bubble_rows c n wr ++ [Row c' t (Executa op)])
                             ++ X)
                   = Entry c' (Z.of_nat n) false :: schedule X).
  { intros X. unfold schedule. rewrite <- app_assoc, schedule_from_bubbles.
    reflexivity. }
  assert (E' : schedule (P ++ bubble_rows c n wr ++ [Row c' t (Executa op)])
               = schedule P ++ [Entry c' (Z.of_nat n) false]).
  { rewrite HP. f_equal.
    rewrite <- (app_nil_r (bubble_rows c n wr ++ _)). apply E. }
  split; [|exact E']. intros X.
  rewrite E', <- !app_assoc. rewrite (app_assoc (bubble_rows c n wr)).
  rewrite HP, E. reflexivity.
Qed.

(** The entries one iteration adds to the schedule. *)
Lemma analyze_line_entries (st : loop_state) (line : string) :
  schedule_closed (printed st) →
  schedule_closed (printed (analyze_line st line))
  ∧ schedule (printed (analyze_line st line))
    = schedule (printed st)
      ++ match decoded_line line with
         | Some (_, _, srcs) =>
             [Entry
                (current_cycle st
                 + required_wait (reg_ready_cycle st) (current_cycle st) srcs)
                (required_wait (reg_ready_cycle st) (current_cycle st) srcs)
                false]
         | None =>
             if decide (PyStr.strip line = EmptyString) then []
             else [Entry (current_cycle st) 0 true]
         end.
Proof.
  intros HP.
  destruct (decoded_line line) as [[[op dest] srcs]|] eqn:Ed.
  - apply decoded_line_Some in Ed as (Hne & Hp & Hl).
    rewrite (analyze_line_issue st line _ _ _ Hne Hp Hl).
    destruct (issue_spec (PyStr.strip line) op dest srcs st) as (wr & _ & ->).
    cbv zeta. cbn [printed].
    pose proof (required_wait_nonneg (reg_ready_cycle st) (current_cycle st)
                  srcs) as Hw.
    destruct (schedule_closed_issue (printed st) (current_cycle st)
                (current_cycle st
                 + required_wait (reg_ready_cycle st) (current_cycle st) srcs)
                (Z.to_nat
                   (required_wait (reg_ready_cycle st) (current_cycle st) srcs))
                wr (PyStr.strip line) op HP) as [H1 H2].
    rewrite Z2Nat.id in H2 by lia. split; assumption.
  - destruct (decide (PyStr.strip line = EmptyString)) as [Hb|Hnb].
    + rewrite analyze_line_blank by assumption. rewrite app_nil_r. auto.
    + rewrite analyze_line_label; [|assumption|].
      * cbn [printed]. apply schedule_closed_label, HP.
      * unfold decoded_line in Ed.
        rewrite (proj2 (PyStrFacts.truthy_nonempty _) Hnb) in Ed.
        destruct (is_label_op _); [reflexivity|discriminate].
Qed.

Lemma stalls_of_app (es es' : list entry) :
  stalls_of (es ++ es') = stalls_of es + stalls_of es'.
Proof.
  unfold stalls_of. induction es as [|e es IH]; cbn; [reflexivity|].
  cbn in IH. rewrite IH. lia.
Qed.

Lemma fold_schedule_totals (lines : list string) : ∀ st : loop_state,
  schedule_closed (printed st) →
  stalls_of (schedule (printed (fold_left analyze_line lines st)))
  - total_stalls (fold_left analyze_line lines st)
  = stalls_of (schedule (printed st)) - total_stalls st
  ∧ length (issued (schedule (printed (fold_left analyze_line lines st))))
    = (length (issued (schedule (printed st))) + length (decoded lines))%nat
  ∧ (match last (issued (schedule (printed st))) with
     | Some e => issue_cycle e = current_cycle st - 1
     | None => current_cycle st = 1
     end →
     match
       last (issued (schedule (printed (fold_left analyze_line lines st))))
     with
     | Some e =>
         issue_cycle e = current_cycle (fold_left analyze_line lines st) - 1
     | None => current_cycle (fold_left analyze_line lines st) = 1
     end).
Proof.
  induction lines as [|line lines IH]; intros st HP.
  - cbn. split; [lia|]. split; [lia|trivial].
  - cbn [fold_left]. rewrite decoded_cons.
    destruct (analyze_line_entries st line HP) as [HP' Hs].
    destruct (IH _ HP') as (H1 & H2 & H3). rewrite H1, H2. clear H1 H2.
    destruct (analyze_line_cases st line)
      as [(Ed & _ & Hc & Ht & _)|(op & dest & srcs & wr & Ed & Heq)];
      rewrite Ed in Hs |- *.
    + assert (Hi : issued (schedule (printed (analyze_line st line)))
                   = issued (schedule (printed st))
                   ∧ stalls_of (schedule (printed (analyze_line st line)))
                     = stalls_of (schedule (printed st))).
      { rewrite Hs. unfold issued. rewrite List.filter_app, stalls_of_app.
        destruct (decide _); cbn; rewrite ?app_nil_r; split;
          (reflexivity || lia). }
      destruct Hi as [Hi1 Hi2]. rewrite Hi1, Hi2, Ht.
      split; [lia|]. split; [cbn; lia|]. intros H. apply H3.
      rewrite Hi1, Hc. exact H.
    + set (w := required_wait (reg_ready_cycle st) (current_cycle st) srcs)
        in *.
      assert (Hc : current_cycle (analyze_line st line)
                   = current_cycle st + w + 1) by (rewrite Heq; reflexivity).
      assert (Ht : total_stalls (analyze_line st line) = total_stalls st + w)
        by (rewrite Heq; reflexivity).
      assert (Hi : issued (schedule (printed (analyze_line st line)))
                   = issued (schedule (printed st))
                     ++ [Entry (current_cycle st + w) w false]
                   ∧ stalls_of (schedule (printed (analyze_line st line)))
                     = stalls_of (schedule (printed st)) + w).
      { rewrite Hs. unfold issued. rewrite List.filter_app, stalls_of_app.
        split; [reflexivity|]. unfold stalls_of at 2. cbn. lia. }
      destruct Hi as [Hi1 Hi2]. rewrite Hi1, Hi2, Ht, length_app.
      split; [lia|]. split; [cbn; lia|]. intros _. apply H3.
      rewrite Hi1, last_snoc, Hc. cbn. lia.
Qed.

(** X3: the schedule read off the printed rows agrees with the summary: its
    stalls add up to the stall count, it holds one issued entry per decoded
    instruction, and the cycle of the last issued entry is the returned
    total (0 when nothing was issued). *)
Theorem schedule_totals (self : simulator) (code_str : string) :
  stalls_of (schedule (rows (snd (analyze self code_str))))
  = bolhas (snd (analyze self code_str))
  ∧ length (issued (schedule (rows (snd (analyze self code_str)))))
    = length (decoded (lines_of code_str))
  ∧ match last (issued (schedule (rows (snd (analyze self code_str))))) with
    | Some e => issue_cycle e = exec_cycles (snd (analyze self code_str))
    | None => exec_cycles (snd (analyze self code_str)) = 0
    end.
Proof.
  unfold analyze, run_lines. cbn [snd rows bolhas exec_cycles].
  destruct (fold_schedule_totals (lines_of code_str) (start (reset self))
              schedule_closed_nil) as (H1 & H2 & H3).
  cbn [start printed total_stalls current_cycle] in *.
  split; [cbn in H1; lia|]. split; [exact H2|].
  specialize (H3 eq_refl).
  destruct (last _); [exact H3|lia].
Qed.

(** ** Bounds on waits and on the readiness table *)

(** X4: no instruction waits more than nine cycles, the longest latency less
    one; and every ready cycle the table holds after a run lies between 2 and
    the returned total plus ten. *)
Theorem stall_and_table_bounds (self : simulator) (code_str : string) :
  Forall (λ e, 0 ≤ stalls_inserted e ≤ 9)
    (schedule (rows (snd (analyze self code_str))))
  ∧ ∀ (r : string) (v : Z),
      self_reg_ready_cycle (fst (analyze self code_str)) !! r = Some v →
      2 ≤ v ≤ exec_cycles (snd (analyze self code_str)) + 10.
Proof.
  unfold analyze. cbn [fst snd rows exec_cycles self_reg_ready_cycle].
  assert (H : let st := run_lines (reset self) (lines_of code_str) in
              1 ≤ current_cycle st
              ∧ schedule_closed (printed st)
              ∧ (∀ r v, reg_ready_cycle st !! r = Some v →
                        2 ≤ v ≤ current_cycle st + 9)
              ∧ Forall (λ e, 0 ≤ stalls_inserted e ≤ 9)
                  (schedule (printed st))).
  { apply (run_lines_ind
             (λ st, 1 ≤ current_cycle st
                    ∧ schedule_closed (printed st)
                    ∧ (∀ r v, reg_ready_cycle st !! r = Some v →
                              2 ≤ v ≤ current_cycle st + 9)
                    ∧ Forall (λ e, 0 ≤ stalls_inserted e ≤ 9)
                        (schedule (printed st)))).
    - cbn. split; [lia|]. split; [apply schedule_closed_nil|].
      split; [|constructor]. intros r v Hr. rewrite lookup_empty in Hr.
      discriminate.
    - intros st line (Hc & HP & Htbl & Hall).
      destruct (analyze_line_entries st line HP) as [HP' Hs].
      split; [|split; [exact HP'|]].
      + destruct (analyze_line_cases st line)
          as [(_ & _ & -> & _)|(op & dest & srcs & wr & _ & ->)];
          [exact Hc|].
        cbv zeta. cbn [current_cycle].
        pose proof (required_wait_nonneg (reg_ready_cycle st)
                      (current_cycle st) srcs). lia.
      + rewrite Hs.
        destruct (analyze_line_cases st line)
          as [(Ed & -> & -> & _)|(op & dest & srcs & wr & Ed & ->)];
          rewrite Ed.
        * split; [exact Htbl|]. apply Forall_app. split; [exact Hall|].
          destruct (decide _); repeat constructor; cbn; lia.
        * cbv zeta. cbn [reg_ready_cycle current_cycle].
          pose proof (required_wait_nonneg (reg_ready_cycle st)
                        (current_cycle st) srcs) as Hw0.
          assert (Hw9 : required_wait (reg_ready_cycle st) (current_cycle st)
                          srcs ≤ 9).
          { apply required_wait_le; [lia|]. intros src ra _ Hl.
            apply Htbl in Hl. lia. }
          split.
          -- intros r v Hr.
             assert (Hlat : 1 ≤ match op with
                                | Some o => get_latency o
                                | None => 1
                                end ≤ 10).
             { destruct op as [o|]; [apply get_latency_bounds|lia]. }
             destruct dest as [d|].
             ++ destruct (decide (d = r)) as [->|Hne].
                ** rewrite lookup_insert_eq in Hr. injection Hr as <-. lia.
                ** rewrite lookup_insert_ne in Hr by assumption.
                   apply Htbl in Hr. lia.
             ++ apply Htbl in Hr. lia.
          -- apply Forall_app. split; [exact Hall|].
             repeat constructor; cbn; lia. }
  destruct H as (_ & _ & H1 & H2). split; [exact H2|].
  intros r v Hr. apply H1 in Hr. lia.
Qed.

Lemma fold_table_domain (lines : list string) :
  ∀ (st : loop_state) (r : string),
    is_Some (reg_ready_cycle (fold_left analyze_line lines st) !! r)
    ↔ is_Some (reg_ready_cycle st !! r)
      ∨ ∃ op srcs, (op, Some r, srcs) ∈ decoded lines.
Proof.
  induction lines as [|line lines IH]; intros st r.
  - cbn. split; [auto|]. intros [H|(op & srcs & H)]; [exact H|inversion H].
  - cbn [fold_left]. rewrite IH, decoded_cons.
    destruct (analyze_line_cases st line)
      as [(-> & -> & _)|(op & dest & srcs & wr & -> & ->)].
    + reflexivity.
    + cbv zeta. cbn [reg_ready_cycle].
      assert (E : is_Some
                    (match dest with
                     | Some d =>
                         <[d := current_cycle st
                                + required_wait (reg_ready_cycle st)
                                    (current_cycle st) srcs
                                + match op with
                                  | Some o => get_latency o
                                  | None => 1
                                  end]> (reg_ready_cycle st)
                     | None => reg_ready_cycle st
                     end !! r)
                  ↔ is_Some (reg_ready_cycle st !! r) ∨ dest = Some r).
      { destruct dest as [d|].
        - rewrite lookup_insert_is_Some.
          destruct (decide (d = r)) as [->|Hne]; [tauto|].
          split; [tauto|]. intros [H|[=]]; [tauto|contradiction].
        - split; [auto|]. intros [H|[=]]. exact H. }
      rewrite E. setoid_rewrite elem_of_cons. split.
      * intros [[H| ->]|(op' & srcs' & H)]; [tauto| |].
        -- right. exists op, srcs. left. reflexivity.
        -- right. exists op', srcs'. right. exact H.
      * intros [H|(op' & srcs' & [[= <- <- <-]|H])]; [tauto|tauto|].
        right. exists op', srcs'. exact H.
Qed.

(** X5: the table a run leaves in the object holds exactly the registers that
    some decoded instruction of the text has as its destination. *)
Theorem table_holds_destinations (self : simulator) (code_str : string)
    (r : string) :
  is_Some (self_reg_ready_cycle (fst (analyze self code_str)) !! r)
  ↔ ∃ op srcs, (op, Some r, srcs) ∈ decoded (lines_of code_str).
Proof.
  unfold analyze, run_lines. cbn [fst self_reg_ready_cycle].
  rewrite fold_table_domain. cbn [start reset reg_ready_cycle
                                     self_reg_ready_cycle].
  rewrite lookup_empty. split; [|auto].
  intros [[x [=]]|H]. exact H.
Qed.

Lemma unit_latency_fold (lines : list string) : ∀ st : loop_state,
  (∀ r v, reg_ready_cycle st !! r = Some v → v ≤ current_cycle st) →
  (∀ o d srcs, (Some o, Some d, srcs) ∈ decoded lines → get_latency o = 1) →
  total_stalls (fold_left analyze_line lines st) = total_stalls st.
Proof.
  induction lines as [|line lines IH]; intros st Htbl Hlat; [reflexivity|].
  cbn [fold_left]. rewrite decoded_cons in Hlat.
  destruct (analyze_line_cases st line)
    as [(Ed & Er & Ec & Et & _)|(op & dest & srcs & wr & Ed & Heq)];
    rewrite Ed in Hlat.
  - rewrite IH; [exact Et| |exact Hlat]. rewrite Er, Ec. exact Htbl.
  - assert (Hw : required_wait (reg_ready_cycle st) (current_cycle st) srcs
                 = 0).
    { pose proof (required_wait_nonneg (reg_ready_cycle st) (current_cycle st)
                    srcs).
      assert (required_wait (reg_ready_cycle st) (current_cycle st) srcs ≤ 0);
        [|lia].
      apply required_wait_le; [lia|]. intros src ra _ Hl.
      apply Htbl in Hl. lia. }
    rewrite Hw in Heq. cbv zeta in Heq.
    rewrite IH.
    + rewrite Heq. cbn. lia.
    + rewrite Heq. cbn [reg_ready_cycle current_cycle]. intros r v Hr.
      destruct dest as [d|]; [|apply Htbl in Hr; lia].
      destruct (decide (d = r)) as [->|Hne].
      * rewrite lookup_insert_eq in Hr. injection Hr as <-.
        apply decoded_line_Some in Ed as (_ & Hp & _).
        destruct (parse_instr_dest _ _ _ _ Hp) as [[o ->] _].
        rewrite (Hlat o r srcs) by (apply elem_of_cons; tauto). lia.
      * rewrite lookup_insert_ne in Hr by assumption.
        apply Htbl in Hr. lia.
    + intros o d s Hin. apply (Hlat o d s). apply elem_of_cons. tauto.
Qed.

(** X6: with forwarding, a text whose register-writing instructions all have
    latency 1 (no divide, multiply or load mnemonic) is never stalled,
    whatever its dependencies: the elapsed cycles are the instructions
    issued. *)
Theorem unit_latency_never_stalls (self : simulator) (code_str : string) :
  (∀ o d srcs, (Some o, Some d, srcs) ∈ decoded (lines_of code_str) →
               get_latency o = 1) →
  bolhas (snd (analyze self code_str)) = 0
  ∧ exec_cycles (snd (analyze self code_str))
    = Z.of_nat (length (decoded (lines_of code_str))).
Proof.
  intros H.
  assert (E : bolhas (snd (analyze self code_str)) = 0).
  { unfold analyze, run_lines. cbn [snd bolhas].
    rewrite unit_latency_fold; [reflexivity| |exact H].
    cbn. intros r v Hr. rewrite lookup_empty in Hr. discriminate. }
  split; [exact E|].
  destruct (fold_cycle_accounting (lines_of code_str) (start (reset self)))
    as [H1 _].
  unfold analyze, run_lines in *. cbn [snd bolhas exec_cycles] in *.
  cbn [start current_cycle total_stalls] in H1. lia.
Qed.

Lemma unit_latency_never_stalls_witness :
  bolhas (snd (analyze new_simulator code_B)) = 0
  ∧ exec_cycles (snd (analyze new_simulator code_B))
    = Z.of_nat (length (decoded (lines_of code_B))).
Proof.
  apply (unit_latency_never_stalls new_simulator code_B).
  intros o d srcs Hin.
  assert (E : decoded (lines_of code_B)
              = [(Some "ADD", Some "R1", ["R2"; "R3"]);
                 (Some "SUB", Some "R4", ["R1"; "R5"]);
                 (Some "AND", Some "R6", ["R1"; "R7"]);
                 (Some "OR", Some "R8", ["R1"; "R9"]);
                 (Some "XOR", Some "R10", ["R1"; "R11"])])
    by (vm_compute; reflexivity).
  rewrite E in Hin. rewrite !elem_of_cons, elem_of_nil in Hin.
  repeat (destruct Hin as [[= -> _ _]|Hin]; [reflexivity|]). destruct Hin.
Defined.

(** ** Stalls are the least possible and follow producer latency *)

Lemma required_wait_attained (tbl : gmap string Z) (cur : Z)
    (srcs : list string) :
  0 < required_wait tbl cur srcs →
  ∃ src ready_at,
    src ∈ srcs ∧ tbl !! src = Some ready_at
    ∧ ready_at = cur + required_wait tbl cur srcs.
Proof.
  intros Hpos. destruct (first_max_source_found tbl cur srcs Hpos) as [r Hr].
  unfold first_max_source in Hr. apply find_some in Hr as [Hin Hdec].
  apply bool_decide_eq_true_1 in Hdec. unfold wait_of in Hdec.
  destruct (tbl !! r) as [ra|] eqn:Er; [|discriminate].
  cbn in Hdec. injection Hdec as Hdec.
  exists r, ra. split; [apply list_elem_of_In, Hin|]. split; [exact Er|lia].
Qed.

(** X7: when an iteration counts a stall, the instruction is printed at exactly
    the ready cycle of one of its sources in the table: with one bubble fewer
    it would issue before that source is ready. *)
Theorem stall_is_needed (st : loop_state) (line : string) :
  total_stalls st < total_stalls (analyze_line st line) →
  ∃ (op dest : option string) (srcs : list string) (src : string)
    (ready_at : Z),
    decoded_line line = Some (op, dest, srcs)
    ∧ src ∈ srcs
    ∧ reg_ready_cycle st !! src = Some ready_at
    ∧ last (printed (analyze_line st line))
      = Some (Row ready_at (PyStr.strip line) (Executa op)).
Proof.
  intros Hlt.
  destruct (analyze_line_cases st line)
    as [(_ & _ & _ & Et & _)|(op & dest & srcs & wr & Ed & Heq)]; [lia|].
  rewrite Heq in Hlt |- *. cbv zeta in *. cbn [total_stalls printed] in *.
  destruct (required_wait_attained (reg_ready_cycle st) (current_cycle st) srcs)
    as (src & ra & Hin & Hl & Hra); [lia|].
  exists op, dest, srcs, src, ra. repeat split; try assumption.
  rewrite !app_assoc, last_snoc, Hra. reflexivity.
Qed.

Lemma stall_is_needed_witness :
  ∃ (op dest : option string) (srcs : list string) (src : string)
    (ready_at : Z),
    decoded_line "ADD.D F4, F0, F2" = Some (op, dest, srcs)
    ∧ src ∈ srcs
    ∧ reg_ready_cycle after_load !! src = Some ready_at
    ∧ last (printed (analyze_line after_load "ADD.D F4, F0, F2"))
      = Some (Row ready_at (PyStr.strip "ADD.D F4, F0, F2") (Executa op)).
Proof.
  apply (stall_is_needed after_load "ADD.D F4, F0, F2").
  vm_compute. reflexivity.
Defined.

(** X8: a consumer placed right after its producer waits at least the producer's
    latency less one; when the pair is the whole text the wait is exactly
    that, and the elapsed cycles are the latency plus one. *)
Theorem dependent_pair_stall (st : loop_state) (self : simulator)
    (l1 l2 o d : string) (s1 s2 : list string) (op2 dest2 : option string) :
  decoded_line l1 = Some (Some o, Some d, s1) →
  decoded_line l2 = Some (op2, dest2, s2) →
  d ∈ s2 →
  get_latency o - 1
  ≤ total_stalls (analyze_line (analyze_line st l1) l2)
    - total_stalls (analyze_line st l1)
  ∧ total_stalls (run_lines (reset self) [l1; l2]) = get_latency o - 1
  ∧ current_cycle (run_lines (reset self) [l1; l2]) - 1 = get_latency o + 1.
Proof.
  intros E1 E2 Hin.
  assert (Hstep : ∀ st0 : loop_state,
            ∃ w : Z,
              0 ≤ w
              ∧ (reg_ready_cycle st0 = ∅ → w = 0)
              ∧ current_cycle (analyze_line st0 l1) = current_cycle st0 + w + 1
              ∧ total_stalls (analyze_line st0 l1) = total_stalls st0 + w
              ∧ reg_ready_cycle (analyze_line st0 l1)
                = <[d := current_cycle st0 + w + get_latency o]>
                    (reg_ready_cycle st0)).
  { intros st0.
    destruct (analyze_line_cases st0 l1)
      as [(Ed & _)|(op & dest & srcs & wr & Ed & ->)];
      rewrite E1 in Ed; [discriminate|].
    injection Ed as <- <- <-. eexists. split; [|split; [|repeat split]].
    - apply required_wait_nonneg.
    - intros ->. apply required_wait_absent. intros s _. apply lookup_empty. }
  assert (Hcons : ∀ st1 : loop_state,
            total_stalls (analyze_line st1 l2)
            = total_stalls st1
              + required_wait (reg_ready_cycle st1) (current_cycle st1) s2
            ∧ current_cycle (analyze_line st1 l2)
              = current_cycle st1
                + required_wait (reg_ready_cycle st1) (current_cycle st1) s2
                + 1).
  { intros st1.
    destruct (analyze_line_cases st1 l2)
      as [(Ed & _)|(op & dest & srcs & wr & Ed & ->)];
      rewrite E2 in Ed; [discriminate|].
    injection Ed as <- <- <-. split; reflexivity. }
  pose proof (get_latency_bounds o) as Hlat.
  split; [|].
  - destruct (Hstep st) as (w & Hw & _ & Hc & Ht & Htbl).
    destruct (Hcons (analyze_line st l1)) as [-> _].
    pose proof (required_wait_covers (reg_ready_cycle (analyze_line st l1))
                  (current_cycle (analyze_line st l1)) s2 d
                  (current_cycle st + w + get_latency o) Hin) as Hcov.
    rewrite Htbl, lookup_insert_eq, Hc in Hcov. specialize (Hcov eq_refl).
    rewrite Htbl, Hc. lia.
  - unfold run_lines. cbn [fold_left].
    destruct (Hstep (start (reset self))) as (w & _ & Hw0 & Hc & Ht & Htbl).
    specialize (Hw0 eq_refl). subst w.
    destruct (Hcons (analyze_line (start (reset self)) l1)) as [-> ->].
    rewrite Htbl, Hc, Ht. cbn [start reset current_cycle total_stalls
                                 reg_ready_cycle self_reg_ready_cycle].
    assert (E : required_wait (<[d := 1 + 0 + get_latency o]> ∅) (1 + 0 + 1) s2
                = get_latency o - 1).
    { apply Z.le_antisymm.
      - apply required_wait_le; [lia|]. intros src ra _ Hl.
        apply lookup_insert_Some in Hl as [[_ <-]|[_ Hl]]; [lia|].
        rewrite lookup_empty in Hl. discriminate.
      - pose proof (required_wait_covers (<[d := 1 + 0 + get_latency o]> ∅)
                      (1 + 0 + 1) s2 d (1 + 0 + get_latency o) Hin) as Hcov.
        rewrite lookup_insert_eq in Hcov. specialize (Hcov eq_refl). lia. }
    rewrite E. split; lia.
Qed.

Lemma dependent_pair_stall_witness :
  get_latency "L.D" - 1
  ≤ total_stalls
      (analyze_line (analyze_line after_load "L.D F0, 0(R1)")
         "ADD.D F4, F0, F2")
    - total_stalls (analyze_line after_load "L.D F0, 0(R1)")
  ∧ total_stalls
      (run_lines (reset new_simulator) ["L.D F0, 0(R1)"; "ADD.D F4, F0, F2"])
    = get_latency "L.D" - 1
  ∧ current_cycle
      (run_lines (reset new_simulator) ["L.D F0, 0(R1)"; "ADD.D F4, F0, F2"])
    - 1
    = get_latency "L.D" + 1.
Proof.
  apply (dependent_pair_stall after_load new_simulator
           "L.D F0, 0(R1)" "ADD.D F4, F0, F2" "L.D" "F0"
           ["R1"] ["F0"; "F2"] (Some "ADD.D") (Some "F4")).
  - vm_compute. reflexivity.
  - vm_compute. reflexivity.
  - apply elem_of_cons. left. reflexivity.
Defined.

(** ** What the schedule depends on *)

Lemma analyze_line_skip (st : loop_state) (line : string) :
  decoded_line line = None →
  reg_ready_cycle (analyze_line st line) = reg_ready_cycle st
  ∧ current_cycle (analyze_line st line) = current_cycle st
  ∧ total_stalls (analyze_line st line) = total_stalls st.
Proof.
  intros Ed.
  destruct (analyze_line_cases st line)
    as [(_ & H1 & H2 & H3 & _)|(op & dest & srcs & wr & Ed' & _)];
    [auto|congruence].
Qed.

Lemma analyze_line_same (st st' : loop_state) (a b : string)
    (i : option string * option string * list string) :
  decoded_line a = Some i → decoded_line b = Some i →
  reg_ready_cycle st = reg_ready_cycle st' →
  current_cycle st = current_cycle st' →
  total_stalls st = total_stalls st' →
  reg_ready_cycle (analyze_line st a) = reg_ready_cycle (analyze_line st' b)
  ∧ current_cycle (analyze_line st a) = current_cycle (analyze_line st' b)
  ∧ total_stalls (analyze_line st a) = total_stalls (analyze_line st' b).
Proof.
  intros Ea Eb Hr Hc Ht.
  destruct (analyze_line_cases st a)
    as [(Ed & _)|(op & dest & srcs & wr & Ed & ->)]; [congruence|].
  destruct (analyze_line_cases st' b)
    as [(Ed' & _)|(op' & dest' & srcs' & wr' & Ed' & ->)]; [congruence|].
  rewrite Ea in Ed. rewrite Eb in Ed'. injection Ed as ->.
  injection Ed' as <- <- <-.
  cbv zeta. cbn [reg_ready_cycle current_cycle total_stalls].
  rewrite Hr, Hc, Ht. auto.
Qed.

Lemma fold_by_decoded (l1 : list string) :
  ∀ (l2 : list string) (st st' : loop_state),
    decoded l1 = decoded l2 →
    reg_ready_cycle st = reg_ready_cycle st' →
    current_cycle st = current_cycle st' →
    total_stalls st = total_stalls st' →
    reg_ready_cycle (fold_left analyze_line l1 st)
    = reg_ready_cycle (fold_left analyze_line l2 st')
    ∧ current_cycle (fold_left analyze_line l1 st)
      = current_cycle (fold_left analyze_line l2 st')
    ∧ total_stalls (fold_left analyze_line l1 st)
      = total_stalls (fold_left analyze_line l2 st').
Proof.
  assert (Hskip : ∀ (l2 : list string) (st st' : loop_state),
            decoded l2 = [] →
            reg_ready_cycle st = reg_ready_cycle st' →
            current_cycle st = current_cycle st' →
            total_stalls st = total_stalls st' →
            reg_ready_cycle st
            = reg_ready_cycle (fold_left analyze_line l2 st')
            ∧ current_cycle st = current_cycle (fold_left analyze_line l2 st')
            ∧ total_stalls st = total_stalls (fold_left analyze_line l2 st')).
  { induction l2 as [|b l2 IH]; intros st st' Hd Hr Hc Ht; [auto|].
    rewrite decoded_cons in Hd. cbn [fold_left].
    destruct (decoded_line b) eqn:Eb; [discriminate|].
    destruct (analyze_line_skip st' b Eb) as (H1 & H2 & H3).
    apply IH; congruence. }
  induction l1 as [|a l1 IH]; intros l2 st st' Hd Hr Hc Ht.
  - cbn [fold_left]. apply Hskip; [symmetry; exact Hd|assumption..].
  - rewrite decoded_cons in Hd. cbn [fold_left].
    destruct (decoded_line a) as [i|] eqn:Ea.
    + revert st' Hr Hc Ht.
      induction l2 as [|b l2 IH2]; intros st' Hr Hc Ht; [discriminate|].
      rewrite decoded_cons in Hd. cbn [fold_left].
      destruct (decoded_line b) as [j|] eqn:Eb.
      * injection Hd as <- Hd.
        destruct (analyze_line_same st st' a b i Ea Eb Hr Hc Ht)
          as (H1 & H2 & H3).
        apply IH; assumption.
      * destruct (analyze_line_skip st' b Eb) as (H1 & H2 & H3).
        apply IH2; [exact Hd|congruence..].
    + destruct (analyze_line_skip st a Ea) as (H1 & H2 & H3).
      apply IH; [exact Hd|congruence..].
Qed.

(** X9: two texts that decode to the same instructions get the same stall
    count, the same elapsed cycles and the same final table: comments,
    spacing, letter case of mnemonics, blank lines and labels change the
    printed rows only. *)
Theorem schedule_by_decoded (self : simulator) (c1 c2 : string) :
  decoded (lines_of c1) = decoded (lines_of c2) →
  fst (analyze self c1) = fst (analyze self c2)
  ∧ bolhas (snd (analyze self c1)) = bolhas (snd (analyze self c2))
  ∧ exec_cycles (snd (analyze self c1)) = exec_cycles (snd (analyze self c2)).
Proof.
  intros Hd. unfold analyze, run_lines. cbn [fst snd bolhas exec_cycles].
  destruct (fold_by_decoded (lines_of c1) (lines_of c2)
              (start (reset self)) (start (reset self)) Hd eq_refl eq_refl
              eq_refl) as (H1 & H2 & H3).
  rewrite H1, H2, H3. auto.
Qed.

Lemma schedule_by_decoded_witness :
  fst (analyze new_simulator code_C)
  = fst (analyze new_simulator
           ("Loop:" +:+ nl +:+ "  l.d F0,0(R1) # load" +:+ nl +:+ nl +:+
            "add.d F4 F0 F2" +:+ nl +:+ "S.D F4, 0(R1)" +:+ nl +:+
            "DADDUI R1, R1" +:+ nl +:+ "bne R1, R2, Loop"))
  ∧ bolhas (snd (analyze new_simulator code_C))
    = bolhas
        (snd (analyze new_simulator
                ("Loop:" +:+ nl +:+ "  l.d F0,0(R1) # load" +:+ nl +:+ nl +:+
                 "add.d F4 F0 F2" +:+ nl +:+ "S.D F4, 0(R1)" +:+ nl +:+
                 "DADDUI R1, R1" +:+ nl +:+ "bne R1, R2, Loop")))
  ∧ exec_cycles (snd (analyze new_simulator code_C))
    = exec_cycles
        (snd (analyze new_simulator
                ("Loop:" +:+ nl +:+ "  l.d F0,0(R1) # load" +:+ nl +:+ nl +:+
                 "add.d F4 F0 F2" +:+ nl +:+ "S.D F4, 0(R1)" +:+ nl +:+
                 "DADDUI R1, R1" +:+ nl +:+ "bne R1, R2, Loop"))).
Proof.
  apply (schedule_by_decoded new_simulator code_C).
  vm_compute. reflexivity.
Defined.

(** ** Lines that are not instructions *)

Lemma lstrip_app_blank (ws s : string) :
  blank ws = true → PyStr.lstrip (ws +:+ s) = PyStr.lstrip s.
Proof.
  unfold blank. induction ws as [|c ws IH]; [reflexivity|].
  change (String c ws +:+ s) with (String c (ws +:+ s)). cbn.
  intros H. apply andb_true_iff in H as [-> Hws]. apply IH, Hws.
Qed.

Lemma rstrip_cons (c : ascii) (s : string) :
  PyStr.isspace c = false →
  PyStr.rstrip (String c s) = String c (PyStr.rstrip s).
Proof. intros H. cbn. rewrite H. destruct (PyStr.rstrip s); reflexivity. Qed.

Lemma strip_comment (ws rest : string) :
  blank ws = true →
  PyStr.strip (ws +:+ "#" +:+ rest) = String "#" (PyStr.rstrip rest).
Proof.
  intros H. unfold PyStr.strip. rewrite lstrip_app_blank by assumption.
  change ("#" +:+ rest) with (String "#" rest).
  change (PyStr.lstrip (String "#" rest)) with (String "#" rest).
  apply rstrip_cons. reflexivity.
Qed.

(** X10: a line that holds only a comment is not skipped: it is decoded to no
    mnemonic, no destination and no source, and the loop prints it as an
    executed instruction that takes one cycle, without stall and without
    touching the table. *)
Theorem comment_line_takes_cycle (st : loop_state) (ws rest : string) :
  blank ws = true →
  parse_instr (PyStr.strip (ws +:+ "#" +:+ rest)) = (None, None, [])
  ∧ analyze_line st (ws +:+ "#" +:+ rest)
    = {| reg_ready_cycle := reg_ready_cycle st;
         current_cycle := current_cycle st + 1;
         total_stalls := total_stalls st;
         printed :=
           printed st
           ++ [Row (current_cycle st) (String "#" (PyStr.rstrip rest))
                 (Executa None)] |}.
Proof.
  intros H. unfold analyze_line. rewrite (strip_comment ws rest H).
  split; reflexivity.
Qed.

Lemma comment_line_takes_cycle_witness :
  parse_instr (PyStr.strip ("  " +:+ "#" +:+ " only a remark"))
  = (None, None, [])
  ∧ analyze_line after_load ("  " +:+ "#" +:+ " only a remark")
    = {| reg_ready_cycle := reg_ready_cycle after_load;
         current_cycle := current_cycle after_load + 1;
         total_stalls := total_stalls after_load;
         printed :=
           printed after_load
           ++ [Row (current_cycle after_load)
                 (String "#" (PyStr.rstrip " only a remark"))
                 (Executa None)] |}.
Proof.
  apply (comment_line_takes_cycle after_load "  " " only a remark").
  reflexivity.
Defined.

Lemma upper_char_colon (c : ascii) :
  Ascii.eqb (PyStr.upper_char c) ":" = Ascii.eqb c ":".
Proof. destruct c as [[] [] [] [] [] [] [] []]; vm_compute; reflexivity. Qed.

Lemma endswith_upper (s : string) :
  PyStr.endswith ":" (PyStr.upper s) = PyStr.endswith ":" s.
Proof.
  induction s as [|c s IH]; [reflexivity|].
  destruct s as [|c' s]; [cbn; apply upper_char_colon|].
  exact IH.
Qed.

(** X11: a line whose first token ends with a colon, or upper-cases to the word
    LABEL, is printed as a label at the current cycle and nothing else
    changes: no cycle, no stall, no table entry, even when operands follow
    on the line. *)
Theorem label_line_is_free (st : loop_state) (line p0 : string)
    (args : list string) :
  parts_of (PyStr.strip line) = p0 :: args →
  PyStr.endswith ":" p0 = true ∨ PyStr.upper p0 = "LABEL" →
  analyze_line st line
  = {| reg_ready_cycle := reg_ready_cycle st;
       current_cycle := current_cycle st;
       total_stalls := total_stalls st;
       printed :=
         printed st ++ [Row (current_cycle st) (PyStr.strip line) Label] |}.
Proof.
  intros Hparts Hlab. apply analyze_line_label.
  - intros E. rewrite E in Hparts. discriminate.
  - unfold parse_instr. rewrite Hparts. cbv zeta. rewrite endswith_upper.
    destruct Hlab as [-> | E]; [reflexivity|]. rewrite E.
    cbn. destruct (PyStr.endswith ":" p0); [reflexivity|].
    destruct args; reflexivity.
Qed.

Lemma label_line_is_free_witness :
  analyze_line after_load "label R9, F0"
  = {| reg_ready_cycle := reg_ready_cycle after_load;
       current_cycle := current_cycle after_load;
       total_stalls := total_stalls after_load;
       printed :=
         printed after_load
         ++ [Row (current_cycle after_load) (PyStr.strip "label R9, F0")
               Label] |}.
Proof.
  apply (label_line_is_free after_load "label R9, F0" "label" ["R9"; "F0"]).
  - vm_compute. reflexivity.
  - right. reflexivity.
Defined.

(** ** Operands of the default category *)

Lemma default_fold (rest : list string) : ∀ acc : list string,
  fold_left default_operand rest acc = acc ++ map default_source rest.
Proof.
  induction rest as [|p rest IH]; intros acc; cbn [fold_left map].
  - rewrite app_nil_r. reflexivity.
  - rewrite IH. unfold default_operand, default_source.
    destruct (PyStr.contains "(" p); rewrite <- app_assoc; reflexivity.
Qed.

(** X12: for a line that is not a label and whose mnemonic is not a store, branch
    or jump, the mnemonic is the first token in upper case, the destination
    is the second token when there is one, and every later token is a
    source, in order: an operand holding an opening parenthesis gives what
    follows it with closing parentheses removed, any other token itself,
    immediates and labels included. *)
Theorem default_decode (line p0 : string) (args : list string) :
  parts_of line = p0 :: args →
  PyStr.endswith ":" p0 = false →
  PyStr.upper p0 ∉ store_branch_ops →
  parse_instr line
  = (Some (PyStr.upper p0), head args, map default_source (tail args)).
Proof.
  intros Hparts Hcolon Hop. unfold parse_instr. rewrite Hparts. cbv zeta.
  rewrite endswith_upper, Hcolon.
  destruct (PyStr.in_list (PyStr.upper p0) store_branch_ops) eqn:E.
  { apply PyStrFacts.in_list_In in E. contradiction. }
  destruct args as [|d rest]; [reflexivity|].
  rewrite default_fold. reflexivity.
Qed.

Lemma default_decode_witness :
  parse_instr "addi R1, R2, 100"
  = (Some (PyStr.upper "addi"), head ["R1"; "R2"; "100"],
     map default_source (tail ["R1"; "R2"; "100"])).
Proof.
  apply (default_decode "addi R1, R2, 100" "addi" ["R1"; "R2"; "100"]).
  - vm_compute. reflexivity.
  - reflexivity.
  - intros H. apply PyStrFacts.in_list_In in H. vm_compute in H.
    discriminate.
Defined.

(** ** Memory operands and decoded names *)

Lemma split_nonempty (c : ascii) (s : string) :
  ∃ h t, PyStr.split c s = h :: t.
Proof.
  destruct s as [|a s]; cbn; [eauto|].
  destruct (Ascii.eqb a c); [eauto|].
  destruct (PyStr.split c s); eauto.
Qed.

Lemma split_second (c : ascii) (s : string) :
  PyStr.contains c s = true → ∃ q, PyStr.split c s !! 1%nat = Some q.
Proof.
  induction s as [|a s IH]; cbn; [discriminate|].
  destruct (Ascii.eqb a c); cbn.
  - intros _. destruct (split_nonempty c s) as (h & t & ->). eauto.
  - intros H. destruct (IH H) as [q Hq].
    destruct (PyStr.split c s) as [|h t]; [discriminate|]. eauto.
Qed.

Lemma split_pieces_clean (c : ascii) (s : string) : ∀ q : string,
  q ∈ PyStr.split c s → PyStr.contains c q = false.
Proof.
  induction s as [|a s IH]; intros q Hq; cbn in Hq.
  - apply list_elem_of_singleton in Hq. subst q. reflexivity.
  - destruct (Ascii.eqb a c) eqn:Ea.
    + apply elem_of_cons in Hq as [->|Hq]; [reflexivity|]. apply IH, Hq.
    + destruct (PyStr.split c s) as [|h t].
      * apply list_elem_of_singleton in Hq. subst q. cbn. rewrite Ea.
        reflexivity.
      * apply elem_of_cons in Hq as [->|Hq].
        -- cbn. rewrite Ea. apply IH, elem_of_cons. tauto.
        -- apply IH, elem_of_cons. tauto.
Qed.

Lemma remove_char_clean (c : ascii) (s : string) :
  PyStr.contains c (PyStr.remove_char c s) = false.
Proof.
  induction s as [|a s IH]; [reflexivity|]. cbn.
  destruct (Ascii.eqb a c) eqn:Ea; [exact IH|]. cbn. rewrite Ea. exact IH.
Qed.

(** X13: the index in [p.split('(')[1]] is always in range where the code
    evaluates it, that is when the operand holds an opening parenthesis; and
    the base it yields never holds a parenthesis of either kind. *)
Theorem mem_base_in_range (p : string) :
  PyStr.contains "(" p = true →
  ∃ q : string,
    PyStr.split "(" p !! 1%nat = Some q
    ∧ mem_base p = PyStr.remove_char ")" q
    ∧ PyStr.contains "(" (mem_base p) = false
    ∧ PyStr.contains ")" (mem_base p) = false.
Proof.
  intros H. destruct (split_second "(" p H) as [q Hq]. exists q.
  split; [exact Hq|]. unfold mem_base. rewrite Hq.
  change (default EmptyString (Some q)) with q.
  split; [reflexivity|]. split; [|apply remove_char_clean].
  apply not_true_iff_false. intros Hc. apply contains_remove_char in Hc.
  rewrite (split_pieces_clean "(" p q) in Hc; [discriminate|].
  eapply list_elem_of_lookup_2, Hq.
Qed.

Lemma mem_base_in_range_witness :
  ∃ q : string,
    PyStr.split "(" "8(R1)" !! 1%nat = Some q
    ∧ mem_base "8(R1)" = PyStr.remove_char ")" q
    ∧ PyStr.contains "(" (mem_base "8(R1)") = false
    ∧ PyStr.contains ")" (mem_base "8(R1)") = false.
Proof. apply (mem_base_in_range "8(R1)"). reflexivity. Defined.

Lemma upper_char_idem (c : ascii) :
  PyStr.upper_char (PyStr.upper_char c) = PyStr.upper_char c.
Proof. destruct c as [[] [] [] [] [] [] [] []]; vm_compute; reflexivity. Qed.

Lemma upper_idem (s : string) : PyStr.upper (PyStr.upper s) = PyStr.upper s.
Proof.
  induction s as [|c s IH]; [reflexivity|]. cbn.
  rewrite upper_char_idem, IH. reflexivity.
Qed.

Lemma parts_of_truthy (line p : string) :
  p ∈ parts_of line → p ≠ EmptyString.
Proof.
  unfold parts_of. intros Hin.
  apply list_elem_of_In, filter_In in Hin as [_ Ht].
  apply PyStrFacts.truthy_nonempty, Ht.
Qed.

(** X14: what the decoder returns is clean: the mnemonic is a non-empty text in
    upper case, the destination is a non-empty text, and neither the
    destination nor any source holds a comma or a whitespace character. *)
Theorem decoded_names_clean (line : string) (op dest : option string)
    (srcs : list string) :
  parse_instr line = (op, dest, srcs) →
  (∀ o, op = Some o → o ≠ EmptyString ∧ PyStr.upper o = o)
  ∧ (∀ d, dest = Some d →
          d ≠ EmptyString
          ∧ ∀ c, PyStr.is_sep c = true → PyStr.contains c d = false)
  ∧ (∀ s c, s ∈ srcs → PyStr.is_sep c = true → PyStr.contains c s = false).
Proof.
  intros Hp. destruct (parse_instr_origin _ _ _ _ Hp) as [Hs Hd].
  split; [|split].
  - intros o ->. revert Hp. unfold parse_instr.
    destruct (parts_of line) as [|p0 args] eqn:Eparts; [discriminate|].
    assert (Hp0 : p0 ≠ EmptyString)
      by (apply (parts_of_truthy line); rewrite Eparts; apply elem_of_cons;
          tauto).
    assert (Hup : PyStr.upper p0 ≠ EmptyString)
      by (destruct p0; [contradiction|discriminate]).
    destruct (PyStr.endswith _ _).
    { intros [= <- _ _]. split; [discriminate|reflexivity]. }
    destruct (PyStr.in_list _ _).
    { intros [= <- _ _]. split; [exact Hup|apply upper_idem]. }
    destruct args; intros [= <- _ _]; (split; [exact Hup|apply upper_idem]).
  - intros d Hdest. specialize (Hd d Hdest). split.
    + apply (parts_of_truthy line), Hd.
    + intros c Hc. apply (parts_of_chars c line d Hd), Hc.
  - intros s c Hin Hc. destruct (Hs s Hin) as (p & Hpin & [->| ->]).
    + apply (parts_of_chars c line p Hpin), Hc.
    + apply not_true_iff_false. intros H. apply mem_base_chars in H.
      rewrite (proj2 (parts_of_chars c line p Hpin) Hc) in H. discriminate.
Qed.

Lemma decoded_names_clean_witness :
  (∀ o, Some "L.D" = Some o → o ≠ EmptyString ∧ PyStr.upper o = o)
  ∧ (∀ d, Some "F0" = Some d →
          d ≠ EmptyString
          ∧ ∀ c, PyStr.is_sep c = true → PyStr.contains c d = false)
  ∧ (∀ s c, s ∈ ["R1"] → PyStr.is_sep c = true → PyStr.contains c s = false).
Proof.
  apply (decoded_names_clean " l.d  F0 ,, 0(R1) # x" (Some "L.D") (Some "F0")
           ["R1"]).
  vm_compute. reflexivity.
Defined.

(** ** The most recent writer of a register *)

Lemma fold_keeps_entry (lines : list string) (d : string) :
  ∀ st : loop_state,
    (∀ op srcs, (op, Some d, srcs) ∉ decoded lines) →
    reg_ready_cycle (fold_left analyze_line lines st) !! d
    = reg_ready_cycle st !! d.
Proof.
  induction lines as [|line lines IH]; intros st Hno; [reflexivity|].
  cbn [fold_left]. rewrite decoded_cons in Hno.
  destruct (analyze_line_cases st line)
    as [(Ed & Er & _)|(op & dest & srcs & wr & Ed & Heq)]; rewrite Ed in Hno.
  - rewrite IH by exact Hno. rewrite Er. reflexivity.
  - rewrite IH by (intros op' srcs' Hin; apply (Hno op' srcs');
                   apply elem_of_cons; tauto).
    rewrite Heq. cbv zeta. cbn [reg_ready_cycle].
    destruct dest as [d'|]; [|reflexivity].
    apply lookup_insert_ne. intros ->.
    apply (Hno op srcs). apply elem_of_cons. tauto.
Qed.

(** X15: only the last instruction that writes a register counts: when no later
    line has the same destination, the table a run leaves holds for that
    register the cycle at which this instruction issued plus the latency of
    its mnemonic. *)
Theorem last_writer_wins (self : simulator) (pre post : list string)
    (line o d : string) (srcs : list string) :
  decoded_line line = Some (Some o, Some d, srcs) →
  (∀ op' srcs', (op', Some d, srcs') ∉ decoded post) →
  reg_ready_cycle (run_lines self (pre ++ line :: post)) !! d
  = Some
      (current_cycle (run_lines self pre)
       + required_wait (reg_ready_cycle (run_lines self pre))
           (current_cycle (run_lines self pre)) srcs
       + get_latency o).
Proof.
  intros Ed Hno. unfold run_lines. rewrite fold_left_app. cbn [fold_left].
  rewrite fold_keeps_entry by exact Hno.
  destruct (analyze_line_cases (fold_left analyze_line pre (start self)) line)
    as [(Ed' & _)|(op & dest & srcs' & wr & Ed' & ->)];
    rewrite Ed in Ed'; [discriminate|].
  injection Ed' as <- <- <-. cbv zeta. cbn [reg_ready_cycle].
  apply lookup_insert_eq.
Qed.

Lemma last_writer_wins_witness :
  reg_ready_cycle
    (run_lines new_simulator
       (["DIV.D F0, F2, F4"] ++ "L.D F0, 0(R1)" :: ["ADD.D F4, F0, F2"]))
  !! "F0"
  = Some
      (current_cycle (run_lines new_simulator ["DIV.D F0, F2, F4"])
       + required_wait
           (reg_ready_cycle (run_lines new_simulator ["DIV.D F0, F2, F4"]))
           (current_cycle (run_lines new_simulator ["DIV.D F0, F2, F4"]))
           ["R1"]
       + get_latency "L.D").
Proof.
  apply (last_writer_wins new_simulator ["DIV.D F0, F2, F4"]
           ["ADD.D F4, F0, F2"] "L.D F0, 0(R1)" "L.D" "F0" ["R1"]).
  - vm_compute. reflexivity.
  - intros op' srcs' Hin.
    assert (E : decoded ["ADD.D F4, F0, F2"]
                = [(Some "ADD.D", Some "F4", ["F0"; "F2"])])
      by (vm_compute; reflexivity).
    rewrite E in Hin. apply list_elem_of_singleton in Hin. discriminate.
Defined.

(** ** The summary's instruction count *)

Lemma length_decoded (lines : list string) :
  (length (decoded lines) ≤ length lines)%nat
  ∧ (length (decoded lines) = length lines
     ↔ Forall (λ l, decoded_line l ≠ None) lines).
Proof.
  induction lines as [|l lines [IH1 IH2]].
  - cbn. split; [lia|]. split; [constructor|reflexivity].
  - rewrite decoded_cons. cbn [length].
    destruct (decoded_line l) as [i|] eqn:E; cbn [length].
    + split; [lia|]. rewrite Forall_cons. rewrite <- IH2.
      split; [intros H; split; [rewrite E; discriminate|lia]|].
      intros [_ H]. lia.
    + split; [lia|]. rewrite Forall_cons. split; [lia|].
      intros [H _]. rewrite E in H. contradiction.
Qed.

(** X16: the count printed as "Instruções Úteis" is the number of lines of the
    stripped text: it is at least 1 and never below the number of
    instructions issued, so the elapsed cycles never exceed it plus the
    stalls; the two agree exactly when every line is decoded as an
    instruction, that is when the text has no blank line and no label. *)
Theorem summary_count_bounds (self : simulator) (code_str : string) :
  (1 ≤ instrucoes_uteis (snd (analyze self code_str)))%nat
  ∧ exec_cycles (snd (analyze self code_str))
    ≤ Z.of_nat (instrucoes_uteis (snd (analyze self code_str)))
      + bolhas (snd (analyze self code_str))
  ∧ (exec_cycles (snd (analyze self code_str))
     = Z.of_nat (instrucoes_uteis (snd (analyze self code_str)))
       + bolhas (snd (analyze self code_str))
     ↔ Forall (λ l, decoded_line l ≠ None) (lines_of code_str)).
Proof.
  destruct (fold_cycle_accounting (lines_of code_str) (start (reset self)))
    as [H _].
  destruct (length_decoded (lines_of code_str)) as [L1 L2].
  unfold analyze, run_lines in *.
  cbn [snd instrucoes_uteis exec_cycles bolhas] in *.
  cbn [start current_cycle total_stalls] in H.
  split; [|split].
  - unfold lines_of.
    destruct (split_nonempty "010" (PyStr.strip code_str)) as (h & t & ->).
    cbn. lia.
  - lia.
  - rewrite <- L2. lia.
Qed.
